(** * Verification of the Telegram-to-X publishing webhook (server.go)

    A shallow embedding of [server.go]: the webhook handler
    [telegramHandler] and the four functions it sequences
    ([fetchArticle], [getHashtags], [postToTwitter],
    [sendTelegramNotification]).

    The program is glue around library calls, so the embedding is a small
    state-and-trace monad: the state is the outside world (environment
    variables, remote services), the trace records, in program order, every
    log line, every entry into one of the program's functions, every request
    handed to an HTTP client and every write on the inbound connection.

    Library code the program calls but does not contain (encoding/json,
    net/http's transport, strconv's quoting) is a field of [Runtime]; every
    theorem is stated for an arbitrary runtime.  [Fake.runtime] is a
    deterministic runtime used to run the handler on concrete inputs. *)

From Stdlib Require Import ZArith String Ascii List Lia DecimalString.
From stdpp Require Import base option list strings gmap.

Open Scope string_scope.
Open Scope Z_scope.

(** ** Go values *)

Module Go.

(** A Go [error], known by its [Error()] text: the program only ever
    formats errors with [%v] and [%w]. *)
Inductive error : Type := MkError (msg : string).

Definition Error (e : error) : string :=
  match e with MkError msg => msg end.

(** The newline and the double quote, which a string literal here cannot
    hold as escapes. *)
Definition nl : string := String "010"%char EmptyString.
Definition dq : string := String "034"%char EmptyString.

(** Arguments of the formatting functions. *)
Inductive Arg : Type :=
| AStr (s : string)
| AInt (n : Z)
| AErr (e : error).

(** [%d] on an int. *)
Definition fmt_d (n : Z) : string :=
  DecimalString.NilZero.string_of_int (Z.to_int n).

Section Fmt.

(** [strconv.Quote], used by the [%q] verb. *)
Variable Quote : string -> string.

(** One verb applied to one operand.  The program uses [%s] on strings,
    [%v] and [%w] on errors, [%d] on ints and [%q] on strings; a verb that
    does not fit its operand prints Go's bad-verb marker. *)
Definition fmt_verb (v : ascii) (a : Arg) : string :=
  match a with
  | AStr s =>
      if Ascii.eqb v "s" || Ascii.eqb v "v" then s
      else if Ascii.eqb v "q" then Quote s
      else "%!" ++ String v ("(string=" ++ s ++ ")")
  | AInt n =>
      if Ascii.eqb v "d" || Ascii.eqb v "v" then fmt_d n
      else "%!" ++ String v ("(int=" ++ fmt_d n ++ ")")
  | AErr e =>
      if Ascii.eqb v "v" || Ascii.eqb v "w" || Ascii.eqb v "s" then Error e
      else if Ascii.eqb v "q" then Quote (Error e)
      else "%!" ++ String v ("(*errors.errorString=" ++ Error e ++ ")")
  end.

(** [fmt.Sprintf]: literal text is copied, [%%] is a percent sign, a verb
    consumes the next operand, a verb without operand prints
    [%!v(MISSING)]. *)
Fixpoint Sprintf (format : string) (args : list Arg) : string :=
  match format with
  | EmptyString => EmptyString
  | String c rest =>
      if Ascii.eqb c "%" then
        match rest with
        | EmptyString => "%!(NOVERB)"
        | String v rest' =>
            if Ascii.eqb v "%" then String "%" (Sprintf rest' args)
            else
              match args with
              | [] => "%!" ++ String v ("(MISSING)" ++ Sprintf rest' [])
              | a :: args' => fmt_verb v a ++ Sprintf rest' args'
              end
        end
      else String c (Sprintf rest args)
  end.

(** [fmt.Errorf]: the error whose text is the formatted string. *)
Definition Errorf (format : string) (args : list Arg) : error :=
  MkError (Sprintf format args).

End Fmt.

(** [strings.HasPrefix]. *)
Definition HasPrefix (s prefix : string) : bool := String.prefix prefix s.

(** An [io.Reader] read to its end: the bytes it delivers and the error, if
    any, that ends the stream instead of EOF. *)
Record Reader : Type := mkReader {
  data : string;
  fault : option error
}.

(** [io.ReadAll]: the bytes read and the error; both are returned. *)
Definition ReadAll (r : Reader) : string * option error := (data r, fault r).

(** net/http status constants. *)
Definition StatusOK : Z := 200.
Definition StatusCreated : Z := 201.
Definition StatusBadRequest : Z := 400.

(** An outbound [http.Request]. *)
Record Request : Type := mkRequest {
  Method : string;
  URL : string;
  Header : gmap string string;
  Payload : string
}.

(** An [http.Response] as the program reads it. *)
Record Response : Type := mkResponse {
  StatusCode : Z;
  Body : Reader
}.

(** The HTTP clients of the program: the default one (and the zero-value
    [&http.Client{}], which behaves the same) and the OAuth 1.0a client that
    signs with a consumer key pair and a token pair. *)
Inductive Client : Type :=
| PlainClient
| OAuth1Client (consumerKey consumerSecret accessToken accessSecret : string).

(** The inbound request, of which the handler reads the body only. *)
Record ServerRequest : Type := mkServerRequest {
  InBody : Reader
}.

(** The [http.ResponseWriter] of the inbound connection: whether the status
    line has been written, the status, the headers and the body. *)
Record ResponseWriter : Type := mkResponseWriter {
  wroteHeader : bool;
  status : Z;
  rwHeader : gmap string string;
  written : string
}.

Definition newResponseWriter : ResponseWriter :=
  {| wroteHeader := false; status := 0; rwHeader := ∅; written := EmptyString |}.

(** The status the peer receives: net/http sends 200 when the handler
    returns without having written a status. *)
Definition transport_status (w : ResponseWriter) : Z :=
  if wroteHeader w then status w else StatusOK.

End Go.

Import Go.

(** ** Data model of server.go *)

Record TelegramMessage : Type := mkTelegramMessage {
  Text : string
}.

Record TelegramUpdate : Type := mkTelegramUpdate {
  UpdateID : Z;
  Message : TelegramMessage
}.

Record Article : Type := mkArticle {
  Title : string;
  Description : string;
  Image : string
}.

Record OpenRouterMessage : Type := mkOpenRouterMessage {
  Role : string;
  Content : string
}.

Record OpenRouterRequest : Type := mkOpenRouterRequest {
  Model : string;
  Messages : list OpenRouterMessage
}.

(** One element of [OpenRouterResponse.Choices]: the anonymous struct
    [{Message {Content}}]. *)
Record OpenRouterChoice : Type := mkOpenRouterChoice {
  ChoiceContent : string
}.

Record OpenRouterResponse : Type := mkOpenRouterResponse {
  Choices : list OpenRouterChoice
}.

(** ** The trace *)

(** Entry into one of the program's functions, with its arguments. *)
Inductive Call : Type :=
| CallFetchArticle (id : string)
| CallGetHashtags (title description : string)
| CallPostToTwitter (article : Article) (messageID hashtags : string)
| CallSendTelegramNotification (message parseMode : string).

Inductive Event : Type :=
| EvLog (line : string)
| EvCall (c : Call)
| EvHTTP (client : Client) (req : Request)
| EvWriteHeader (code : Z)
| EvWrite (bytes : string).

(** ** The library code the program runs on *)

Record Runtime : Type := mkRuntime {
  (** the outside world: process environment and remote services *)
  World : Type;
  (** [os.Getenv] *)
  Getenv : World -> string -> string;
  (** [Client.Do]: hand a request to a client; an error or a response, and
      the world afterwards *)
  Do : Client -> Request -> World -> (error + Response) * World;
  (** the checks of [http.NewRequest] on method and URL *)
  NewRequestCheck : string -> string -> option error;
  (** [json.NewDecoder(r).Decode] at the three types it is used at *)
  DecodeUpdate : Reader -> error + TelegramUpdate;
  DecodeArticle : Reader -> error + Article;
  (** [json.Unmarshal] into an [OpenRouterResponse] *)
  UnmarshalResponse : string -> error + OpenRouterResponse;
  (** [json.Marshal] of a [map[string]string] and of an [OpenRouterRequest] *)
  MarshalMap : gmap string string -> error + string;
  MarshalRequest : OpenRouterRequest -> error + string;
  (** [strconv.Quote] *)
  Quote : string -> string
}.

(** ** The state-and-trace monad *)

Section Program.

Context (rt : Runtime).

(** A computation: from the world to a value, the world afterwards and the
    events emitted, oldest first. *)
Definition M (A : Type) : Type := World rt -> A * World rt * list Event.

Definition ret {A : Type} (a : A) : M A := fun w => (a, w, []).

Definition bind {A B : Type} (m : M A) (k : A -> M B) : M B :=
  fun w =>
    let '(a, w1, t1) := m w in
    let '(b, w2, t2) := k a w1 in
    (b, w2, (t1 ++ t2)%list).

Definition emit (e : Event) : M unit := fun w => (tt, w, [e]).

Notation "x <- m ;; k" := (bind m (fun x => k))
  (at level 100, m at next level, right associativity).
Notation "m ;; k" := (bind m (fun _ => k))
  (at level 100, right associativity).

Abbreviation Sprintf := (Go.Sprintf (Quote rt)).
Abbreviation Errorf := (Go.Errorf (Quote rt)).

(** *** Library operations *)

Definition os_Getenv (key : string) : M string :=
  fun w => (Getenv rt w key, w, []).

(** [log.Println] of one string and [log.Printf]; the trace keeps the
    message, without the logger's timestamp. *)
Definition log_Println (line : string) : M unit := emit (EvLog line).

Definition log_Printf (format : string) (args : list Arg) : M unit :=
  emit (EvLog (Sprintf format args)).

(** [http.NewRequest]: the request with the given method, URL and body and
    no header, unless method or URL is refused. *)
Definition http_NewRequest (method url body : string) : error + Request :=
  match NewRequestCheck rt method url with
  | Some err => inl err
  | None =>
      inr {| Method := method; URL := url; Header := ∅; Payload := body |}
  end.

(** [req.Header.Set]. *)
Definition Header_Set (req : Request) (key value : string) : Request :=
  {| Method := Method req; URL := URL req;
     Header := <[ key := value ]> (Header req); Payload := Payload req |}.

Definition client_Do (c : Client) (req : Request) : M (error + Response) :=
  fun w => let '(r, w') := Do rt c req w in (r, w', [EvHTTP c req]).

(** [http.Get] and [http.Post]: build the request, hand it to the default
    client. *)
Definition http_Get (url : string) : M (error + Response) :=
  match http_NewRequest "GET" url EmptyString with
  | inl err => ret (inl err)
  | inr req => client_Do PlainClient req
  end.

Definition http_Post (url contentType body : string) : M (error + Response) :=
  match http_NewRequest "POST" url body with
  | inl err => ret (inl err)
  | inr req => client_Do PlainClient (Header_Set req "Content-Type" contentType)
  end.

(** [ResponseWriter.WriteHeader]: the first call writes the status line, a
    later one is ignored and reported on the server's log. *)
Definition WriteHeader (w : ResponseWriter) (code : Z) : M ResponseWriter :=
  if wroteHeader w then
    log_Println "http: superfluous response.WriteHeader call" ;; ret w
  else
    emit (EvWriteHeader code) ;;
    ret {| wroteHeader := true; status := code;
           rwHeader := rwHeader w; written := written w |}.

(** [ResponseWriter.Write]: writes status 200 first when none was written. *)
Definition rw_Write (w : ResponseWriter) (bytes : string) : M ResponseWriter :=
  w1 <- (if wroteHeader w then ret w else WriteHeader w StatusOK) ;;
  emit (EvWrite bytes) ;;
  ret {| wroteHeader := wroteHeader w1; status := status w1;
         rwHeader := rwHeader w1; written := written w1 ++ bytes |}.

Definition rw_Header_Set (w : ResponseWriter) (key value : string)
  : ResponseWriter :=
  {| wroteHeader := wroteHeader w; status := status w;
     rwHeader := <[ key := value ]> (rwHeader w); written := written w |}.

(** [http.Error] (Go 1.19, the toolchain of the Dockerfile). *)
Definition http_Error (w : ResponseWriter) (msg : string) (code : Z)
  : M ResponseWriter :=
  let w1 := rw_Header_Set w "Content-Type" "text/plain; charset=utf-8" in
  let w2 := rw_Header_Set w1 "X-Content-Type-Options" "nosniff" in
  w3 <- WriteHeader w2 code ;;
  rw_Write w3 (msg ++ nl).

(** *** sendTelegramNotification *)

(** The [requestData] map: [parse_mode] is added only when not empty. *)
Definition requestData (chatID message parseMode : string)
  : gmap string string :=
  let base : gmap string string :=
    <[ "text" := message ]> (<[ "chat_id" := chatID ]> ∅) in
  if negb (String.eqb parseMode EmptyString)
  then <[ "parse_mode" := parseMode ]> base
  else base.

Definition sendTelegramNotification (message parseMode : string) : M unit :=
  emit (EvCall (CallSendTelegramNotification message parseMode)) ;;
  botToken <- os_Getenv "TELEGRAM_BOT_TOKEN" ;;
  chatID <- os_Getenv "TELEGRAM_CHAT_ID" ;;
  if String.eqb botToken EmptyString || String.eqb chatID EmptyString then
    log_Println
      "WARNING: TELEGRAM_BOT_TOKEN or TELEGRAM_CHAT_ID not set. Cannot send notification."
  else
    let apiURL :=
      Sprintf "https://api.telegram.org/bot%s/sendMessage" [AStr botToken] in
    match MarshalMap rt (requestData chatID message parseMode) with
    | inl err =>
        log_Printf "WARNING: Failed to marshal notification body: %v" [AErr err]
    | inr requestBody =>
        r <- http_Post apiURL "application/json" requestBody ;;
        match r with
        | inl err =>
            log_Printf "WARNING: Failed to send notification to Telegram: %v"
              [AErr err]
        | inr resp =>
            if negb (StatusCode resp =? StatusOK) then
              let '(body, _) := ReadAll (Body resp) in
              log_Printf
                "WARNING: Telegram API returned non-200 status for notification: %s"
                [AStr body]
            else
              log_Printf "[SUCCESS] Sent notification to Telegram group: %s"
                [AStr message]
        end
    end.

(** *** fetchArticle *)

Definition fetchArticle (id : string) : M (error + Article) :=
  emit (EvCall (CallFetchArticle id)) ;;
  let url := Sprintf "https://viewon.news/notion.php?id=%s" [AStr id] in
  r <- http_Get url ;;
  match r with
  | inl err => ret (inl (Errorf "could not fetch article: %w" [AErr err]))
  | inr resp =>
      if negb (StatusCode resp =? StatusOK) then
        ret (inl (Errorf "unexpected status code: %d" [AInt (StatusCode resp)]))
      else
        match DecodeArticle rt (Body resp) with
        | inl err =>
            ret (inl (Errorf "could not decode article data: %w" [AErr err]))
        | inr article => ret (inr article)
        end
  end.

(** *** postToTwitter *)

Definition tweetURL : string := "https://api.twitter.com/2/tweets".

(** The local [articleURL], [tweetText] and [payload] of [postToTwitter]. *)
Definition articleURL (messageID : string) : string :=
  Sprintf "https://viewon.news/article.html?id=%s" [AStr messageID].

Definition tweetText (article : Article) (messageID hashtags : string)
  : string :=
  Sprintf ("%s" ++ nl ++ "%s" ++ nl ++ nl ++ "%s")
    [AStr (Title article); AStr hashtags; AStr (articleURL messageID)].

Definition payload (article : Article) (messageID hashtags : string)
  : string :=
  Sprintf ("{" ++ dq ++ "text" ++ dq ++ ": %q}")
    [AStr (tweetText article messageID hashtags)].

(** A plain [error] result is [None] for [nil]. *)
Definition postToTwitter (article : Article) (messageID hashtags : string)
  : M (option error) :=
  emit (EvCall (CallPostToTwitter article messageID hashtags)) ;;
  consumerKey <- os_Getenv "TWITTER_CONSUMER_KEY" ;;
  consumerSecret <- os_Getenv "TWITTER_CONSUMER_SECRET" ;;
  accessToken <- os_Getenv "TWITTER_ACCESS_TOKEN" ;;
  accessSecret <- os_Getenv "TWITTER_ACCESS_SECRET" ;;
  if String.eqb consumerKey EmptyString
     || String.eqb consumerSecret EmptyString
     || String.eqb accessToken EmptyString
     || String.eqb accessSecret EmptyString
  then ret (Some (Errorf "twitter api credentials not set" []))
  else
    let httpClient :=
      OAuth1Client consumerKey consumerSecret accessToken accessSecret in
    match http_NewRequest "POST" tweetURL (payload article messageID hashtags) with
    | inl err => ret (Some (Errorf "failed to create request: %w" [AErr err]))
    | inr req0 =>
        let req := Header_Set req0 "Content-Type" "application/json" in
        r <- client_Do httpClient req ;;
        match r with
        | inl err =>
            ret (Some (Errorf "failed to send request: %w" [AErr err]))
        | inr resp =>
            match ReadAll (Body resp) with
            | (_, Some err) =>
                ret (Some (Errorf "failed to read response body: %w" [AErr err]))
            | (body, None) =>
                if negb (StatusCode resp =? StatusCreated) then
                  ret (Some (Errorf
                    ("received non-201 status code: %d" ++ nl ++ "Response: %s")
                    [AInt (StatusCode resp); AStr body]))
                else
                  log_Println "[SUCCESS] Tweet posted to X." ;;
                  ret None
            end
        end
    end.

(** *** getHashtags *)

Definition openRouterURL : string :=
  "https://openrouter.ai/api/v1/chat/completions".

Definition prompt (title description : string) : string :=
  Sprintf
    ("Based on the following news article title and description, generate 3-5 relevant hashtags for a tweet. Do not include any other text, just the hashtags starting with #."
     ++ nl ++ nl ++ "Title: %s" ++ nl ++ "Description: %s")
    [AStr title; AStr description].

(** On failure Go returns the pair of the empty string and the error; the
    caller reads the string only when the error is nil. *)
Definition getHashtags (title description : string) : M (error + string) :=
  emit (EvCall (CallGetHashtags title description)) ;;
  apiKey <- os_Getenv "OPENROUTER_API_KEY" ;;
  if String.eqb apiKey EmptyString then
    ret (inl (Errorf "OPENROUTER_API_KEY not set" []))
  else
    let requestBody :=
      {| Model := "deepseek/deepseek-r1:free";
         Messages := [ {| Role := "user";
                          Content := prompt title description |} ] |} in
    match MarshalRequest rt requestBody with
    | inl err =>
        ret (inl (Errorf "failed to marshal request body: %w" [AErr err]))
    | inr body0 =>
        match http_NewRequest "POST" openRouterURL body0 with
        | inl err =>
            ret (inl (Errorf "failed to create request: %w" [AErr err]))
        | inr req0 =>
            let req1 := Header_Set req0 "Authorization" ("Bearer " ++ apiKey) in
            let req := Header_Set req1 "Content-Type" "application/json" in
            r <- client_Do PlainClient req ;;
            match r with
            | inl err =>
                ret (inl (Errorf "failed to send request to OpenRouter: %w"
                            [AErr err]))
            | inr resp =>
                match ReadAll (Body resp) with
                | (_, Some err) =>
                    ret (inl (Errorf
                      "failed to read response body from OpenRouter: %w"
                      [AErr err]))
                | (body, None) =>
                    if negb (StatusCode resp =? StatusOK) then
                      ret (inl (Errorf
                        "received non-200 status from OpenRouter: %s"
                        [AStr body]))
                    else
                      match UnmarshalResponse rt body with
                      | inl err =>
                          ret (inl (Errorf
                            "failed to unmarshal OpenRouter response: %w"
                            [AErr err]))
                      | inr openRouterResponse =>
                          match Choices openRouterResponse with
                          | c :: _ => ret (inr (ChoiceContent c))
                          | [] =>
                              ret (inl (Errorf
                                "no content found in OpenRouter response" []))
                          end
                      end
                end
            end
        end
    end.

(** *** telegramHandler *)

Definition fetchFailure (id : string) (err : error) : string :=
  Sprintf "❌ Failed to fetch article with ID %s. Reason: %v"
    [AStr id; AErr err].

Definition hashtagsFailure (id : string) (err : error) : string :=
  Sprintf "❌ Failed to get hashtags for article with ID %s. Reason: %v"
    [AStr id; AErr err].

Definition twitterFailure (id : string) (err : error) : string :=
  Sprintf "❌ Failed to post to Twitter for article with ID %s. Reason: %v"
    [AStr id; AErr err].

Definition successMessage (id : string) : string :=
  Sprintf "✅ Successfully posted article with ID: `%s`" [AStr id].

Definition telegramHandler (w : ResponseWriter) (r : ServerRequest)
  : M ResponseWriter :=
  match DecodeUpdate rt (InBody r) with
  | inl err =>
      log_Printf "could not decode incoming telegram message: %v" [AErr err] ;;
      http_Error w "bad request" StatusBadRequest
  | inr update =>
      let text := Text (Message update) in
      log_Printf "Received message from user: %s" [AStr text] ;;
      log_Println "[SUCCESS] New message received and decoded." ;;
      if HasPrefix text "http://" || HasPrefix text "https://" then
        log_Println
          "[INFO] Received a URL instead of an ID. Ignoring and sending 200 OK to clear Telegram's queue." ;;
        WriteHeader w StatusOK
      else
        fetched <- fetchArticle text ;;
        match fetched with
        | inl err =>
            sendTelegramNotification (fetchFailure text err) EmptyString ;;
            log_Printf "could not fetch article: %v" [AErr err] ;;
            WriteHeader w StatusOK
        | inr article =>
            log_Println "[SUCCESS] Article data fetched." ;;
            generated <- getHashtags (Title article) (Description article) ;;
            match generated with
            | inl err =>
                sendTelegramNotification (hashtagsFailure text err) EmptyString ;;
                log_Printf "ERROR: could not get hashtags: %v" [AErr err] ;;
                WriteHeader w StatusOK
            | inr hashtags =>
                log_Println "[SUCCESS] Hashtags generated." ;;
                posted <- postToTwitter article text hashtags ;;
                match posted with
                | Some err =>
                    sendTelegramNotification (twitterFailure text err)
                      EmptyString ;;
                    log_Printf "could not post to twitter: %v" [AErr err] ;;
                    WriteHeader w StatusOK
                | None =>
                    log_Println "[SUCCESS] Tweet posted to X." ;;
                    w' <- WriteHeader w StatusOK ;;
                    sendTelegramNotification (successMessage text) "MarkdownV2" ;;
                    ret w'
                end
            end
        end
  end.

(** *** main

    [main] loads the environment file, registers two handlers and serves;
    the listener and the request multiplexer are net/http's.  The handler
    it registers for the pattern [/] is the function literal below;
    [fmt.Fprint] on the response writer is one [Write]. *)

Definition rootHandler (w : ResponseWriter) (r : ServerRequest)
  : M ResponseWriter :=
  rw_Write w "The server is running.".

End Program.

Arguments ret {rt A} a w.
Arguments bind {rt A B} m k w.
Arguments sendTelegramNotification rt message parseMode w : simpl never.
Arguments fetchArticle rt id w : simpl never.
Arguments getHashtags rt title description w : simpl never.
Arguments postToTwitter rt article messageID hashtags w : simpl never.
Arguments telegramHandler rt w r _ : simpl never.

(** ** Reading a run *)

Section Observations.

Context {rt : Runtime} {A : Type}.

(** The three components of a finished run. *)
Definition value (o : A * World rt * list Event) : A := fst (fst o).
Definition after (o : A * World rt * list Event) : World rt := snd (fst o).
Definition trace (o : A * World rt * list Event) : list Event := snd o.

End Observations.

(** The entries into the program's functions, in order. *)
Definition calls (t : list Event) : list Call :=
  omap (fun e => match e with EvCall c => Some c | _ => None end) t.

(** Entries into each of the four functions: the resolve, generate and
    publish stages and the notifier. *)
Definition resolves (t : list Event) : list string :=
  omap (fun c => match c with CallFetchArticle id => Some id | _ => None end)
       (calls t).

Definition generates (t : list Event) : list (string * string) :=
  omap (fun c => match c with
                 | CallGetHashtags title description => Some (title, description)
                 | _ => None
                 end)
       (calls t).

Definition publishes (t : list Event) : list (Article * string * string) :=
  omap (fun c => match c with
                 | CallPostToTwitter a id h => Some (a, id, h)
                 | _ => None
                 end)
       (calls t).

(** The notifier's invocations: message and parse mode. *)
Definition notifications (t : list Event) : list (string * string) :=
  omap (fun c => match c with
                 | CallSendTelegramNotification m p => Some (m, p)
                 | _ => None
                 end)
       (calls t).

(** The requests handed to an HTTP client, and their URLs. *)
Definition requests (t : list Event) : list (Client * Request) :=
  omap (fun e => match e with EvHTTP c r => Some (c, r) | _ => None end) t.

Definition urls (t : list Event) : list string :=
  map (fun cr => URL (snd cr)) (requests t).

(** The status lines written on the inbound connection. *)
Definition acks (t : list Event) : list Z :=
  omap (fun e => match e with EvWriteHeader code => Some code | _ => None end) t.

(** [sub] occurs in [s]. *)
Definition contains (s sub : string) : Prop :=
  exists before behind : string, s = before ++ sub ++ behind.

(** The URLs of the four outbound interfaces. *)
Definition lookupURL (rt : Runtime) (id : string) : string :=
  Sprintf (Quote rt) "https://viewon.news/notion.php?id=%s" [AStr id].

Definition notifyURL (rt : Runtime) (botToken : string) : string :=
  Sprintf (Quote rt) "https://api.telegram.org/bot%s/sendMessage" [AStr botToken].

(** The post text in the words of the specification: the title, the
    hashtags and the article URL, one per line. *)
Definition spec_post_text (rt : Runtime) (title hashtags id : string) : string :=
  title ++ nl ++ hashtags ++ nl ++ articleURL rt id.

(** ** A deterministic runtime *)

Module Fake.

(** A scenario fixes the environment, the documents the JSON decoders
    accept (each stands for a JSON text and is paired with the value it
    decodes to), and the answer of the network to each request. *)
Record Scenario : Type := mkScenario {
  env : list (string * string);
  updates : list (string * TelegramUpdate);
  articles : list (string * Article);
  completions : list (string * OpenRouterResponse);
  net : Client -> Request -> error + Response
}.

Fixpoint assoc {V : Type} (k : string) (l : list (string * V)) : option V :=
  match l with
  | [] => None
  | (k', v) :: l' => if String.eqb k k' then Some v else assoc k l'
  end.

(** A decoder that accepts exactly the listed documents. *)
Definition decode_by {V : Type} (docs : list (string * V)) (r : Reader)
  : error + V :=
  match fault r with
  | Some err => inl err
  | None =>
      match assoc (data r) docs with
      | Some v => inr v
      | None => inl (MkError "invalid character looking for beginning of value")
      end
  end.

(** Quoting that escapes the double quote, the backslash and the newline. *)
Fixpoint escape (s : string) : string :=
  match s with
  | EmptyString => EmptyString
  | String c s' =>
      if Ascii.eqb c "034" then String "\" (String c (escape s'))
      else if Ascii.eqb c "\" then String "\" (String c (escape s'))
      else if Ascii.eqb c "010" then String "\" (String "n" (escape s'))
      else String c (escape s')
  end.

Definition quote (s : string) : string := dq ++ escape s ++ dq.

Definition marshal_map (m : gmap string string) : error + string :=
  inr ("{" ++ String.concat ","
         (map (fun kv => quote (fst kv) ++ ":" ++ quote (snd kv)) (map_to_list m))
       ++ "}").

Definition marshal_request (r : OpenRouterRequest) : error + string :=
  inr ("{" ++ quote "model" ++ ":" ++ quote (Model r) ++ ","
       ++ quote "messages" ++ ":["
       ++ String.concat ","
            (map (fun m => "{" ++ quote "role" ++ ":" ++ quote (Role m) ++ ","
                           ++ quote "content" ++ ":" ++ quote (Content m) ++ "}")
                 (Messages r))
       ++ "]}").

(** The world of the fake counts the requests served. *)
Definition runtime (sc : Scenario) : Runtime :=
  {| World := nat;
     Getenv := fun _ key => default EmptyString (assoc key (env sc));
     Do := fun c req n => (net sc c req, S n);
     NewRequestCheck := fun _ _ => None;
     DecodeUpdate := decode_by (updates sc);
     DecodeArticle := decode_by (articles sc);
     UnmarshalResponse := fun body =>
       decode_by (completions sc) {| data := body; fault := None |};
     MarshalMap := marshal_map;
     MarshalRequest := marshal_request;
     Quote := quote |}.

Definition ok (code : Z) (body : string) : error + Response :=
  inr {| StatusCode := code; Body := {| data := body; fault := None |} |}.

(** The scenario of the specification: trigger [abc123], article titled
    [T] with description [D], hashtags [#a #b #c], every service answering
    with success. *)
Definition article_T : Article :=
  {| Title := "T"; Description := "D"; Image := "i.png" |}.

Definition other_T : Article :=
  {| Title := "T"; Description := "another description"; Image := "j.png" |}.

Definition full_env : list (string * string) :=
  [ ("TELEGRAM_BOT_TOKEN", "tok"); ("TELEGRAM_CHAT_ID", "42");
    ("OPENROUTER_API_KEY", "key");
    ("TWITTER_CONSUMER_KEY", "ck"); ("TWITTER_CONSUMER_SECRET", "cs");
    ("TWITTER_ACCESS_TOKEN", "at"); ("TWITTER_ACCESS_SECRET", "as") ].

Definition trigger (text : string) : TelegramUpdate :=
  {| UpdateID := 1; Message := {| Text := text |} |}.

Definition inbound (body : string) : ServerRequest :=
  {| InBody := {| data := body; fault := None |} |}.

Definition happy_net (tweetStatus : Z) (c : Client) (req : Request)
  : error + Response :=
  if String.eqb (URL req) "https://viewon.news/notion.php?id=abc123" then
    ok 200 "article-json"
  else if String.eqb (URL req) "https://openrouter.ai/api/v1/chat/completions" then
    ok 200 "completion-json"
  else if String.eqb (URL req) "https://api.twitter.com/2/tweets" then
    ok tweetStatus "tweet-json"
  else if String.eqb (URL req) "https://api.telegram.org/bottok/sendMessage" then
    ok 200 "sent"
  else ok 404 "not found".

(** [tweetStatus] is the status the social-media API answers with; the
    completion endpoint returns [choices]. *)
Definition scenario (tweetStatus : Z) (choices : list OpenRouterChoice)
  : Scenario :=
  {| env := full_env;
     updates := [ ("update-abc123", trigger "abc123");
                  ("update-missing", trigger "missing");
                  ("update-url", trigger "https://evil.example/x") ];
     articles := [ ("article-json", article_T) ];
     completions := [ ("completion-json", {| Choices := choices |}) ];
     net := happy_net tweetStatus |}.

Definition happy : Runtime :=
  runtime (scenario 201 [ {| ChoiceContent := "#a #b #c" |} ]).

(** The same, with the social-media API answering 200 instead of 201. *)
Definition answered_200 : Runtime :=
  runtime (scenario 200 [ {| ChoiceContent := "#a #b #c" |} ]).

(** Runtimes that differ from the scenario in one respect: the environment,
    the updates the decoder accepts, or the network. *)
Definition with_env (e : list (string * string)) : Runtime :=
  runtime {| env := e; updates := []; articles := []; completions := [];
             net := happy_net 201 |}.

Definition with_updates (us : list (string * TelegramUpdate)) : Runtime :=
  runtime {| env := full_env; updates := us;
             articles := [ ("article-json", article_T) ]; completions := [];
             net := happy_net 201 |}.

Definition with_net (n : Client -> Request -> error + Response) : Runtime :=
  runtime {| env := full_env; updates := []; articles := [];
             completions := []; net := n |}.

End Fake.

(** ** Vocabulary of the statements *)

(** What one function leaves in the trace: its own entry [c], no status
    line, and at most the one request to [u]. *)
Definition leaves (t : list Event) (c : Call) (u : string) : Prop :=
  calls t = [c] /\ acks t = [] /\ (urls t = [] \/ urls t = [u]).

(** The function entries of one pipeline run on identifier [id] from world
    [w], as the outcomes of the stages decide them. *)
Definition pipeline_calls (rt : Runtime) (id : string) (w : World rt)
  : list Call :=
  let f := fetchArticle rt id w in
  CallFetchArticle id ::
  match value f with
  | inl err => [CallSendTelegramNotification (fetchFailure rt id err) EmptyString]
  | inr a =>
      let g := getHashtags rt (Title a) (Description a) (after f) in
      CallGetHashtags (Title a) (Description a) ::
      match value g with
      | inl err =>
          [CallSendTelegramNotification (hashtagsFailure rt id err) EmptyString]
      | inr h =>
          let p := postToTwitter rt a id h (after g) in
          CallPostToTwitter a id h ::
          match value p with
          | Some err =>
              [CallSendTelegramNotification (twitterFailure rt id err) EmptyString]
          | None =>
              [CallSendTelegramNotification (successMessage rt id) "MarkdownV2"]
          end
      end
  end.

(** All three stages succeed on identifier [id] from world [w]: the resolver
    returns [a], the generator then returns [h], the publisher then returns
    no error. *)
Definition all_stages_succeed (rt : Runtime) (id : string) (w : World rt)
    (a : Article) (h : string) : Prop :=
  value (fetchArticle rt id w) = inr a /\
  value (getHashtags rt (Title a) (Description a)
           (after (fetchArticle rt id w))) = inr h /\
  value (postToTwitter rt a id h
           (after (getHashtags rt (Title a) (Description a)
                     (after (fetchArticle rt id w))))) = None.

(** The client [postToTwitter] signs with, in world [w]. *)
Definition signer (rt : Runtime) (w : World rt) : Client :=
  OAuth1Client (Getenv rt w "TWITTER_CONSUMER_KEY")
               (Getenv rt w "TWITTER_CONSUMER_SECRET")
               (Getenv rt w "TWITTER_ACCESS_TOKEN")
               (Getenv rt w "TWITTER_ACCESS_SECRET").

(** The requests of a trace that are addressed to the tweet endpoint. *)
Definition tweet_requests (t : list Event) : list (Client * Request) :=
  List.filter (fun cr => String.eqb (URL (snd cr)) tweetURL) (requests t).

(** The request [postToTwitter] builds for its client. *)
Definition tweetRequest (rt : Runtime) (a : Article) (id hashtags : string)
  : Request :=
  Header_Set
    {| Method := "POST"; URL := tweetURL; Header := ∅;
       Payload := payload rt a id hashtags |}
    "Content-Type" "application/json".

(** The request [getHashtags] builds, from the marshalled body. *)
Definition completionRequest (apiKey body : string) : Request :=
  Header_Set
    (Header_Set
       {| Method := "POST"; URL := openRouterURL; Header := ∅; Payload := body |}
       "Authorization" ("Bearer " ++ apiKey))
    "Content-Type" "application/json".

(** The request [fetchArticle] has [http.Get] build: the identifier is
    appended to the lookup URL as it is. *)
Definition lookupRequest (id : string) : Request :=
  {| Method := "GET"; URL := "https://viewon.news/notion.php?id=" ++ id;
     Header := ∅; Payload := EmptyString |}.

(** The request [sendTelegramNotification] has [http.Post] build, from the
    marshalled body. *)
Definition notifyRequest (botToken body : string) : Request :=
  Header_Set
    {| Method := "POST";
       URL := "https://api.telegram.org/bot" ++ botToken ++ "/sendMessage";
       Header := ∅; Payload := body |}
    "Content-Type" "application/json".

(** The body [getHashtags] marshals. *)
Definition completionBody (rt : Runtime) (title description : string)
  : OpenRouterRequest :=
  {| Model := "deepseek/deepseek-r1:free";
     Messages := [ {| Role := "user";
                      Content := prompt rt title description |} ] |}.

(** * Proofs *)

(** ** The monad's equations, read through [value], [after] and [trace] *)

Section RunLemmas.

Context {rt : Runtime}.

Lemma value_bind {A B : Type} (m : M rt A) (k : A -> M rt B) (w : World rt) :
  value (bind m k w) = value (k (value (m w)) (after (m w))).
Proof.
  unfold bind, value, after.
  destruct (m w) as [[a w1] t1]; cbn.
  destruct (k a w1) as [[b w2] t2]; reflexivity.
Qed.

Lemma after_bind {A B : Type} (m : M rt A) (k : A -> M rt B) (w : World rt) :
  after (bind m k w) = after (k (value (m w)) (after (m w))).
Proof.
  unfold bind, value, after.
  destruct (m w) as [[a w1] t1]; cbn.
  destruct (k a w1) as [[b w2] t2]; reflexivity.
Qed.

Lemma trace_bind {A B : Type} (m : M rt A) (k : A -> M rt B) (w : World rt) :
  trace (bind m k w)
  = (trace (m w) ++ trace (k (value (m w)) (after (m w))))%list.
Proof.
  unfold bind, value, after, trace.
  destruct (m w) as [[a w1] t1]; cbn.
  destruct (k a w1) as [[b w2] t2]; reflexivity.
Qed.

Lemma run_eta {A : Type} (o : A * World rt * list Event) :
  o = (value o, after o, trace o).
Proof. destruct o as [[a w] t]; reflexivity. Qed.

End RunLemmas.

(** ** Observations distribute over concatenation *)

Lemma calls_app (t1 t2 : list Event) :
  calls (t1 ++ t2) = (calls t1 ++ calls t2)%list.
Proof. apply omap_app. Qed.

Lemma acks_app (t1 t2 : list Event) :
  acks (t1 ++ t2) = (acks t1 ++ acks t2)%list.
Proof. apply omap_app. Qed.

Lemma requests_app (t1 t2 : list Event) :
  requests (t1 ++ t2) = (requests t1 ++ requests t2)%list.
Proof. apply omap_app. Qed.

Lemma urls_app (t1 t2 : list Event) :
  urls (t1 ++ t2) = (urls t1 ++ urls t2)%list.
Proof. unfold urls. rewrite requests_app. apply map_app. Qed.

(** ** Library operations *)

Section Primitives.

Context {rt : Runtime}.

Lemma trace_client_Do (c : Client) (req : Request) (w : World rt) :
  trace (client_Do rt c req w) = [EvHTTP c req].
Proof. unfold client_Do, trace. destruct (Do rt c req w); reflexivity. Qed.

Lemma value_client_Do (c : Client) (req : Request) (w : World rt) :
  value (client_Do rt c req w) = fst (Do rt c req w).
Proof. unfold client_Do, value. destruct (Do rt c req w); reflexivity. Qed.

Lemma after_client_Do (c : Client) (req : Request) (w : World rt) :
  after (client_Do rt c req w) = snd (Do rt c req w).
Proof. unfold client_Do, after. destruct (Do rt c req w); reflexivity. Qed.

End Primitives.

(** Symbolic execution of a run: split binds and evaluate the operations
    that do not branch. *)
Ltac run_det :=
  first
    [ progress rewrite ?value_bind, ?after_bind, ?trace_bind,
        ?trace_client_Do, ?value_client_Do, ?after_client_Do
    | progress cbn [value after trace fst snd ret emit os_Getenv
                    log_Println log_Printf ReadAll
                    wroteHeader status rwHeader written] ].

(** Case on a test the program makes, innermost first. *)
Ltac run_case :=
  match goal with
  | |- context [match ?x with _ => _ end] =>
      lazymatch x with
      | context [match _ with _ => _ end] => fail
      | _ => destruct x eqn:?
      end
  end.

Ltac run_step := first [ run_det | run_case ].

Ltac run := repeat run_step.

(** Execution along a path fixed by [tac], which rewrites the outcome of
    each test. *)
Ltac run_along tac := repeat first [ run_det | progress tac ].

(** ** The four functions, one at a time

    Each function enters once, writes nothing on the inbound connection and
    hands at most one request to an HTTP client, addressed to its own
    endpoint. *)

Section Stages.

Context {rt : Runtime}.

Lemma sendTelegramNotification_leaves (message parseMode : string) (w : World rt) :
  leaves (trace (sendTelegramNotification rt message parseMode w))
    (CallSendTelegramNotification message parseMode)
    (notifyURL rt (Getenv rt w "TELEGRAM_BOT_TOKEN")).
Proof.
  unfold sendTelegramNotification, http_Post, http_NewRequest.
  run; unfold leaves; cbn; auto.
Qed.

Lemma fetchArticle_leaves (id : string) (w : World rt) :
  leaves (trace (fetchArticle rt id w)) (CallFetchArticle id) (lookupURL rt id).
Proof.
  unfold fetchArticle, http_Get, http_NewRequest.
  run; unfold leaves; cbn; auto.
Qed.

Lemma getHashtags_leaves (title description : string) (w : World rt) :
  leaves (trace (getHashtags rt title description w))
    (CallGetHashtags title description) openRouterURL.
Proof.
  unfold getHashtags, http_NewRequest.
  run; unfold leaves; cbn; auto.
Qed.

Lemma postToTwitter_leaves (a : Article) (id hashtags : string) (w : World rt) :
  leaves (trace (postToTwitter rt a id hashtags w))
    (CallPostToTwitter a id hashtags) tweetURL.
Proof.
  unfold postToTwitter, http_NewRequest.
  run; unfold leaves; cbn; auto.
Qed.

End Stages.

(** The three parts of [leaves], for rewriting. *)
Section StageFacts.

Context {rt : Runtime}.

Lemma sendTelegramNotification_calls (message parseMode : string) (w : World rt) :
  calls (trace (sendTelegramNotification rt message parseMode w))
  = [CallSendTelegramNotification message parseMode].
Proof. exact (proj1 (sendTelegramNotification_leaves message parseMode w)). Qed.

Lemma sendTelegramNotification_acks (message parseMode : string) (w : World rt) :
  acks (trace (sendTelegramNotification rt message parseMode w)) = [].
Proof.
  exact (proj1 (proj2 (sendTelegramNotification_leaves message parseMode w))).
Qed.

Lemma fetchArticle_calls (id : string) (w : World rt) :
  calls (trace (fetchArticle rt id w)) = [CallFetchArticle id].
Proof. exact (proj1 (fetchArticle_leaves id w)). Qed.

Lemma fetchArticle_acks (id : string) (w : World rt) :
  acks (trace (fetchArticle rt id w)) = [].
Proof. exact (proj1 (proj2 (fetchArticle_leaves id w))). Qed.

Lemma getHashtags_calls (title description : string) (w : World rt) :
  calls (trace (getHashtags rt title description w))
  = [CallGetHashtags title description].
Proof. exact (proj1 (getHashtags_leaves title description w)). Qed.

Lemma getHashtags_acks (title description : string) (w : World rt) :
  acks (trace (getHashtags rt title description w)) = [].
Proof. exact (proj1 (proj2 (getHashtags_leaves title description w))). Qed.

Lemma postToTwitter_calls (a : Article) (id hashtags : string) (w : World rt) :
  calls (trace (postToTwitter rt a id hashtags w))
  = [CallPostToTwitter a id hashtags].
Proof. exact (proj1 (postToTwitter_leaves a id hashtags w)). Qed.

Lemma postToTwitter_acks (a : Article) (id hashtags : string) (w : World rt) :
  acks (trace (postToTwitter rt a id hashtags w)) = [].
Proof. exact (proj1 (proj2 (postToTwitter_leaves a id hashtags w))). Qed.

End StageFacts.

(** Push an observation through a trace built from the four functions. *)
Ltac observe :=
  rewrite ?calls_app, ?acks_app, ?urls_app,
    ?sendTelegramNotification_calls, ?sendTelegramNotification_acks,
    ?fetchArticle_calls, ?fetchArticle_acks,
    ?getHashtags_calls, ?getHashtags_acks,
    ?postToTwitter_calls, ?postToTwitter_acks.

(** ** The handler *)

Section Handler.

Context {rt : Runtime}.

Lemma WriteHeader_fresh (rw : ResponseWriter) (code : Z) (w : World rt) :
  wroteHeader rw = false ->
  WriteHeader rt rw code w
  = ({| wroteHeader := true; status := code;
        rwHeader := rwHeader rw; written := written rw |}, w,
     [EvWriteHeader code]).
Proof. unfold WriteHeader. intros ->. reflexivity. Qed.

Variables (rw : ResponseWriter) (r : ServerRequest) (w : World rt).

Hypothesis fresh : wroteHeader rw = false.

Local Abbreviation handled := (telegramHandler rt rw r w).

(** A body that does not decode: status 400 and the text of [http.Error],
    nothing else. *)
Lemma undecodable_trigger_run (err : error) :
  DecodeUpdate rt (InBody r) = inl err ->
  transport_status (value handled) = 400 /\
  trace handled
  = [ EvLog (Sprintf (Quote rt)
               "could not decode incoming telegram message: %v" [AErr err]);
      EvWriteHeader 400; EvWrite ("bad request" ++ nl) ].
Proof.
  intros Hdec.
  unfold telegramHandler, http_Error, rw_Write, WriteHeader.
  rewrite Hdec. cbn [rw_Header_Set wroteHeader]. rewrite fresh.
  split; run; reflexivity.
Qed.

Variable update : TelegramUpdate.

Hypothesis decoded : DecodeUpdate rt (InBody r) = inr update.

(** A trigger that is a URL: nothing runs, the status is 200. *)
Lemma url_trigger_run :
  HasPrefix (Text (Message update)) "http://" = true
  \/ HasPrefix (Text (Message update)) "https://" = true ->
  handled
  = ({| wroteHeader := true; status := 200;
        rwHeader := rwHeader rw; written := written rw |}, w,
     [ EvLog (Sprintf (Quote rt) "Received message from user: %s"
                [AStr (Text (Message update))]);
       EvLog "[SUCCESS] New message received and decoded.";
       EvLog "[INFO] Received a URL instead of an ID. Ignoring and sending 200 OK to clear Telegram's queue.";
       EvWriteHeader 200 ]).
Proof.
  intros Hurl.
  assert (Hor : HasPrefix (Text (Message update)) "http://"
                || HasPrefix (Text (Message update)) "https://" = true).
  { destruct Hurl as [-> | ->]; [reflexivity | apply orb_true_r]. }
  unfold telegramHandler. rewrite decoded. cbn zeta. rewrite Hor.
  rewrite (run_eta (bind _ _ _)). run.
  rewrite (WriteHeader_fresh _ _ _ fresh). reflexivity.
Qed.

Hypothesis not_http : HasPrefix (Text (Message update)) "http://" = false.
Hypothesis not_https : HasPrefix (Text (Message update)) "https://" = false.

(** A valid trigger: status 200, written once, and the function entries
    are those of the pipeline. *)
Lemma valid_trigger_status : transport_status (value handled) = 200.
Proof.
  unfold telegramHandler.
  rewrite decoded. cbn zeta. rewrite not_http, not_https. cbn [orb].
  run; rewrite ?(WriteHeader_fresh _ _ _ fresh); reflexivity.
Qed.

Lemma valid_trigger_acks : acks (trace handled) = [200].
Proof.
  unfold telegramHandler.
  rewrite decoded. cbn zeta. rewrite not_http, not_https. cbn [orb].
  run; rewrite ?(WriteHeader_fresh _ _ _ fresh); observe; reflexivity.
Qed.

Lemma valid_trigger_calls :
  calls (trace handled) = pipeline_calls rt (Text (Message update)) w.
Proof.
  unfold telegramHandler, pipeline_calls.
  rewrite decoded. cbn zeta. rewrite not_http, not_https. cbn [orb].
  run; rewrite ?(WriteHeader_fresh _ _ _ fresh); observe; reflexivity.
Qed.

End Handler.

(** ** Strings *)

Lemma append_nil_r (s : string) : s ++ EmptyString = s.
Proof.
  induction s as [| c s IH]; [reflexivity |].
  change (String c (s ++ EmptyString) = String c s). now f_equal.
Qed.

Lemma append_assoc (s1 s2 s3 : string) : (s1 ++ s2) ++ s3 = s1 ++ s2 ++ s3.
Proof.
  induction s1 as [| c s1 IH]; [reflexivity |].
  change (String c ((s1 ++ s2) ++ s3) = String c (s1 ++ s2 ++ s3)). now f_equal.
Qed.

Lemma contains_middle (s1 s2 s3 : string) : contains (s1 ++ s2 ++ s3) s2.
Proof. exists s1, s3. reflexivity. Qed.

Lemma contains_end (s1 s2 : string) : contains (s1 ++ s2) s2.
Proof. exists s1, EmptyString. now rewrite append_nil_r. Qed.

(** The four messages of the handler, with the verbs filled in. *)
Section Messages.

Context (rt : Runtime).

Lemma fetchFailure_text (id : string) (err : error) :
  fetchFailure rt id err
  = "❌ Failed to fetch article with ID " ++ id ++ ". Reason: " ++ Error err.
Proof. unfold fetchFailure. cbn. now rewrite append_nil_r. Qed.

Lemma hashtagsFailure_text (id : string) (err : error) :
  hashtagsFailure rt id err
  = "❌ Failed to get hashtags for article with ID " ++ id
    ++ ". Reason: " ++ Error err.
Proof. unfold hashtagsFailure. cbn. now rewrite append_nil_r. Qed.

Lemma twitterFailure_text (id : string) (err : error) :
  twitterFailure rt id err
  = "❌ Failed to post to Twitter for article with ID " ++ id
    ++ ". Reason: " ++ Error err.
Proof. unfold twitterFailure. cbn. now rewrite append_nil_r. Qed.

Lemma successMessage_text (id : string) :
  successMessage rt id = "✅ Successfully posted article with ID: `" ++ id ++ "`".
Proof. reflexivity. Qed.

Lemma articleURL_text (id : string) :
  articleURL rt id = "https://viewon.news/article.html?id=" ++ id.
Proof. unfold articleURL. cbn. now rewrite append_nil_r. Qed.

Lemma tweetText_text (a : Article) (id hashtags : string) :
  tweetText rt a id hashtags
  = Title a ++ nl ++ hashtags ++ nl ++ nl ++ articleURL rt id.
Proof.
  transitivity (Title a ++ nl ++ hashtags ++ nl ++ nl
                ++ articleURL rt id ++ EmptyString);
    [reflexivity | now rewrite append_nil_r].
Qed.

Lemma payload_text (a : Article) (id hashtags : string) :
  payload rt a id hashtags
  = "{" ++ dq ++ "text" ++ dq ++ ": "
    ++ Quote rt (tweetText rt a id hashtags) ++ "}".
Proof. reflexivity. Qed.

(** The [requestData] of a notification carries [parse_mode] exactly when
    the parse mode is not empty. *)
Lemma requestData_plain (chatID message : string) :
  requestData chatID message EmptyString !! "parse_mode" = None.
Proof. reflexivity. Qed.

Lemma requestData_rich (chatID message : string) :
  requestData chatID message "MarkdownV2" !! "parse_mode" = Some "MarkdownV2".
Proof. reflexivity. Qed.

End Messages.

Section Decoded.

Context {rt : Runtime}.
Variables (rw : ResponseWriter) (r : ServerRequest) (w : World rt).
Hypothesis fresh : wroteHeader rw = false.

(** A body that decodes: status 200. *)
Lemma decoded_trigger_status (update : TelegramUpdate) :
  DecodeUpdate rt (InBody r) = inr update ->
  transport_status (value (telegramHandler rt rw r w)) = 200.
Proof.
  intros Hdec.
  destruct (HasPrefix (Text (Message update)) "http://") eqn:H1.
  - rewrite (url_trigger_run rw r w fresh update Hdec); [reflexivity | now left].
  - destruct (HasPrefix (Text (Message update)) "https://") eqn:H2.
    + rewrite (url_trigger_run rw r w fresh update Hdec);
        [reflexivity | now right].
    + exact (valid_trigger_status rw r w fresh update Hdec H1 H2).
Qed.

End Decoded.

(** ** The four endpoints are distinct *)

Lemma urls_log (line : string) : urls [EvLog line] = [].
Proof. reflexivity. Qed.

Lemma urls_ack (code : Z) : urls [EvWriteHeader code] = [].
Proof. reflexivity. Qed.


Ltac url_neq :=
  let H := fresh in
  intros H; unfold lookupURL, notifyURL, openRouterURL, tweetURL in H;
  cbn in H; discriminate H.

Ltac nodup_urls :=
  repeat (apply NoDup_cons; split;
          [ rewrite ?not_elem_of_cons; repeat split;
            first [ apply not_elem_of_nil | url_neq ] | ]);
  apply NoDup_nil_2.

(** Case on whether each function of a trace sent its request. *)
Ltac split_urls :=
  repeat match goal with
  | |- context [urls (trace (fetchArticle ?rt ?id ?w))] =>
      let H := fresh in
      destruct (fetchArticle_leaves (rt:=rt) id w) as (_ & _ & [H | H]);
      rewrite H; clear H
  | |- context [urls (trace (getHashtags ?rt ?t ?d ?w))] =>
      let H := fresh in
      destruct (getHashtags_leaves (rt:=rt) t d w) as (_ & _ & [H | H]);
      rewrite H; clear H
  | |- context [urls (trace (postToTwitter ?rt ?a ?id ?h ?w))] =>
      let H := fresh in
      destruct (postToTwitter_leaves (rt:=rt) a id h w) as (_ & _ & [H | H]);
      rewrite H; clear H
  | |- context [urls (trace (sendTelegramNotification ?rt ?m ?p ?w))] =>
      let H := fresh in
      destruct (sendTelegramNotification_leaves (rt:=rt) m p w)
        as (_ & _ & [H | H]);
      rewrite H; clear H
  end.

Section Endpoints.
Context {rt : Runtime}.
Variables (id tok : string).

Lemma four_endpoints :
  NoDup [lookupURL rt id; openRouterURL; tweetURL; notifyURL rt tok].
Proof. nodup_urls. Qed.

Variables (rw : ResponseWriter) (r : ServerRequest) (w : World rt).
Variable update : TelegramUpdate.
Hypothesis fresh : wroteHeader rw = false.
Hypothesis decoded : DecodeUpdate rt (InBody r) = inr update.
Hypothesis not_http : HasPrefix (Text (Message update)) "http://" = false.
Hypothesis not_https : HasPrefix (Text (Message update)) "https://" = false.

Lemma valid_trigger_urls : NoDup (urls (trace (telegramHandler rt rw r w))).
Proof.
  unfold telegramHandler.
  rewrite decoded. cbn zeta. rewrite not_http, not_https. cbn [orb].
  run; rewrite ?(WriteHeader_fresh _ _ _ fresh); observe; split_urls;
    cbn [trace snd]; rewrite ?urls_log, ?urls_ack; cbn [app];
    nodup_urls.
Qed.
End Endpoints.

(** ** The publisher *)

Section Publisher.

Context {rt : Runtime}.
Variables (a : Article) (id hashtags : string) (w : World rt).

(** Success leaves one request in the trace: the tweet request, handed to
    the signing client and answered with 201 and a readable body. *)
Lemma postToTwitter_success :
  value (postToTwitter rt a id hashtags w) = None ->
  requests (trace (postToTwitter rt a id hashtags w))
  = [(signer rt w, tweetRequest rt a id hashtags)] /\
  exists resp : Response,
    fst (Do rt (signer rt w) (tweetRequest rt a id hashtags) w) = inr resp /\
    StatusCode resp = StatusCreated /\ fault (Body resp) = None.
Proof.
  unfold postToTwitter, http_NewRequest, tweetRequest, signer.
  run; intros Hnone; try discriminate Hnone.
  split; [reflexivity |].
  eexists; split; [reflexivity |]. split; [| assumption].
  match goal with
  | H : negb (_ =? _) = false |- _ =>
      apply negb_false_iff, Z.eqb_eq in H; exact H
  end.
Qed.

End Publisher.


(** ** The path on which every stage succeeds *)

Section Success.

Context {rt : Runtime}.
Variables (rw : ResponseWriter) (r : ServerRequest) (w : World rt).
Variable update : TelegramUpdate.
Variables (a : Article) (h : string).

Hypothesis fresh : wroteHeader rw = false.
Hypothesis decoded : DecodeUpdate rt (InBody r) = inr update.
Hypothesis not_http : HasPrefix (Text (Message update)) "http://" = false.
Hypothesis not_https : HasPrefix (Text (Message update)) "https://" = false.
Hypothesis success : all_stages_succeed rt (Text (Message update)) w a h.

Local Abbreviation id := (Text (Message update)).
Local Abbreviation w1 := (after (fetchArticle rt id w)).
Local Abbreviation w2 := (after (getHashtags rt (Title a) (Description a) w1)).
Local Abbreviation w3 := (after (postToTwitter rt a id h w2)).

Lemma success_trace :
  trace (telegramHandler rt rw r w)
  = (([ EvLog (Sprintf (Quote rt) "Received message from user: %s" [AStr id]);
       EvLog "[SUCCESS] New message received and decoded." ]
     ++ trace (fetchArticle rt id w)
     ++ [ EvLog "[SUCCESS] Article data fetched." ]
     ++ trace (getHashtags rt (Title a) (Description a) w1)
     ++ [ EvLog "[SUCCESS] Hashtags generated." ]
     ++ trace (postToTwitter rt a id h w2)
     ++ [ EvLog "[SUCCESS] Tweet posted to X." ])
    ++ EvWriteHeader 200
       :: trace (sendTelegramNotification rt (successMessage rt id)
                   "MarkdownV2" w3))%list.
Proof.
  destruct success as (Hf & Hg & Hp).
  unfold telegramHandler.
  rewrite decoded. cbn zeta. rewrite not_http, not_https. cbn [orb].
  run_along ltac:(rewrite ?Hf, ?Hg, ?Hp, ?(WriteHeader_fresh _ _ _ fresh)).
  rewrite <- !app_assoc, app_nil_r. reflexivity.
Qed.

End Success.


(** ** Requests to the tweet endpoint *)

Lemma tweet_requests_app (t1 t2 : list Event) :
  tweet_requests (t1 ++ t2) = (tweet_requests t1 ++ tweet_requests t2)%list.
Proof. unfold tweet_requests. rewrite requests_app. apply List.filter_app. Qed.

Lemma tweet_requests_log (line : string) : tweet_requests [EvLog line] = [].
Proof. reflexivity. Qed.

Lemma tweet_requests_ack (code : Z) : tweet_requests [EvWriteHeader code] = [].
Proof. reflexivity. Qed.

(** A function that sends at most one request, to another endpoint, sends
    none to the tweet endpoint. *)
Lemma tweet_requests_elsewhere (t : list Event) (c : Call) (u : string) :
  leaves t c u -> u <> tweetURL -> tweet_requests t = [].
Proof.
  intros (_ & _ & Hurls) Hneq. unfold tweet_requests.
  unfold urls in Hurls.
  destruct (requests t) as [| cr [| cr' l]]; [reflexivity | | ].
  - destruct Hurls as [Hnil | Hone]; [discriminate Hnil |].
    injection Hone as Hu. cbn [List.filter].
    destruct (String.eqb_spec (URL (snd cr)) tweetURL) as [Heq | _];
      [| reflexivity].
    congruence.
  - destruct Hurls as [Hnil | Hone]; discriminate.
Qed.

Section TweetRequests.

Context {rt : Runtime}.

Lemma fetchArticle_no_tweet (id : string) (w : World rt) :
  tweet_requests (trace (fetchArticle rt id w)) = [].
Proof.
  apply (tweet_requests_elsewhere _ _ _ (fetchArticle_leaves id w)). url_neq.
Qed.

Lemma getHashtags_no_tweet (title description : string) (w : World rt) :
  tweet_requests (trace (getHashtags rt title description w)) = [].
Proof.
  apply (tweet_requests_elsewhere _ _ _ (getHashtags_leaves title description w)).
  url_neq.
Qed.

Lemma sendTelegramNotification_no_tweet (message parseMode : string)
      (w : World rt) :
  tweet_requests (trace (sendTelegramNotification rt message parseMode w)) = [].
Proof.
  apply (tweet_requests_elsewhere _ _ _
           (sendTelegramNotification_leaves message parseMode w)).
  url_neq.
Qed.

End TweetRequests.


(** ** The scenarios of the specification, run *)

Example fmt_d_404 : fmt_d 404 = "404".
Proof. reflexivity. Qed.

Example happy_run_calls :
  calls (trace (telegramHandler Fake.happy newResponseWriter
                  (Fake.inbound "update-abc123") 0%nat))
  = [ CallFetchArticle "abc123";
      CallGetHashtags "T" "D";
      CallPostToTwitter Fake.article_T "abc123" "#a #b #c";
      CallSendTelegramNotification
        "✅ Successfully posted article with ID: `abc123`" "MarkdownV2" ].
Proof. vm_compute. reflexivity. Qed.

Example happy_run_urls :
  urls (trace (telegramHandler Fake.happy newResponseWriter
                 (Fake.inbound "update-abc123") 0%nat))
  = [ "https://viewon.news/notion.php?id=abc123";
      "https://openrouter.ai/api/v1/chat/completions";
      "https://api.twitter.com/2/tweets";
      "https://api.telegram.org/bottok/sendMessage" ].
Proof. vm_compute. reflexivity. Qed.

Example happy_post_text :
  tweetText Fake.happy Fake.article_T "abc123" "#a #b #c"
  = "T" ++ nl ++ "#a #b #c" ++ nl ++ nl
    ++ "https://viewon.news/article.html?id=abc123".
Proof. vm_compute. reflexivity. Qed.

(** The social-media API answers 200 instead of 201: the run ends in the
    failure notification, in plain text, and the transport still gets 200. *)
Example tweet_200_run :
  notifications
    (trace (telegramHandler Fake.answered_200 newResponseWriter
              (Fake.inbound "update-abc123") 0%nat))
  = [ ("❌ Failed to post to Twitter for article with ID abc123. Reason: received non-201 status code: 200"
       ++ nl ++ "Response: tweet-json", EmptyString) ] /\
  acks
    (trace (telegramHandler Fake.answered_200 newResponseWriter
              (Fake.inbound "update-abc123") 0%nat))
  = [200].
Proof. split; vm_compute; reflexivity. Qed.

(** The URL trigger of the specification. *)
Example url_run :
  telegramHandler Fake.happy newResponseWriter (Fake.inbound "update-url") 0%nat
  = ({| wroteHeader := true; status := 200; rwHeader := ∅;
        written := EmptyString |},
     0%nat,
     [ EvLog "Received message from user: https://evil.example/x";
       EvLog "[SUCCESS] New message received and decoded.";
       EvLog "[INFO] Received a URL instead of an ID. Ignoring and sending 200 OK to clear Telegram's queue.";
       EvWriteHeader 200 ]).
Proof. vm_compute. reflexivity. Qed.

(** * The claims *)

(** C1. A request whose body decodes as a trigger and whose text does not
    begin with [http://] or [https://] is answered with status 200, written
    once, whatever the world answers to the resolve, generate and publish
    stages: the runtime and the world are arbitrary. *)
Theorem valid_trigger_acknowledged
    (rt : Runtime) (rw : ResponseWriter) (r : ServerRequest) (w : World rt)
    (update : TelegramUpdate) :
  wroteHeader rw = false ->
  DecodeUpdate rt (InBody r) = inr update ->
  HasPrefix (Text (Message update)) "http://" = false ->
  HasPrefix (Text (Message update)) "https://" = false ->
  transport_status (value (telegramHandler rt rw r w)) = 200 /\
  acks (trace (telegramHandler rt rw r w)) = [200].
Proof.
  intros fresh decoded H1 H2. split.
  - exact (valid_trigger_status rw r w fresh update decoded H1 H2).
  - exact (valid_trigger_acks rw r w fresh update decoded H1 H2).
Qed.

Lemma valid_trigger_acknowledged_witness :
  transport_status
    (value (telegramHandler Fake.happy newResponseWriter
              (Fake.inbound "update-abc123") 0%nat)) = 200 /\
  acks (trace (telegramHandler Fake.happy newResponseWriter
                 (Fake.inbound "update-abc123") 0%nat)) = [200].
Proof.
  apply (valid_trigger_acknowledged Fake.happy newResponseWriter
           (Fake.inbound "update-abc123") 0%nat (Fake.trigger "abc123"));
    reflexivity.
Defined.

(** C2. A trigger whose text starts with [http://] or [https://] is
    answered with status 200; no function of the pipeline is entered (so the
    notifier is not invoked), no request is handed to an HTTP client, and the
    world is left as it was. *)
Theorem url_trigger_ignored
    (rt : Runtime) (rw : ResponseWriter) (r : ServerRequest) (w : World rt)
    (update : TelegramUpdate) :
  wroteHeader rw = false ->
  DecodeUpdate rt (InBody r) = inr update ->
  HasPrefix (Text (Message update)) "http://" = true
  \/ HasPrefix (Text (Message update)) "https://" = true ->
  transport_status (value (telegramHandler rt rw r w)) = 200 /\
  acks (trace (telegramHandler rt rw r w)) = [200] /\
  requests (trace (telegramHandler rt rw r w)) = [] /\
  resolves (trace (telegramHandler rt rw r w)) = [] /\
  generates (trace (telegramHandler rt rw r w)) = [] /\
  publishes (trace (telegramHandler rt rw r w)) = [] /\
  notifications (trace (telegramHandler rt rw r w)) = [] /\
  after (telegramHandler rt rw r w) = w.
Proof.
  intros fresh decoded Hurl.
  rewrite (url_trigger_run rw r w fresh update decoded Hurl).
  repeat split.
Qed.

Lemma url_trigger_ignored_witness :
  transport_status
    (value (telegramHandler Fake.happy newResponseWriter
              (Fake.inbound "update-url") 0%nat)) = 200 /\
  acks (trace (telegramHandler Fake.happy newResponseWriter
                 (Fake.inbound "update-url") 0%nat)) = [200] /\
  requests (trace (telegramHandler Fake.happy newResponseWriter
                     (Fake.inbound "update-url") 0%nat)) = [] /\
  resolves (trace (telegramHandler Fake.happy newResponseWriter
                     (Fake.inbound "update-url") 0%nat)) = [] /\
  generates (trace (telegramHandler Fake.happy newResponseWriter
                      (Fake.inbound "update-url") 0%nat)) = [] /\
  publishes (trace (telegramHandler Fake.happy newResponseWriter
                      (Fake.inbound "update-url") 0%nat)) = [] /\
  notifications (trace (telegramHandler Fake.happy newResponseWriter
                          (Fake.inbound "update-url") 0%nat)) = [] /\
  after (telegramHandler Fake.happy newResponseWriter
           (Fake.inbound "update-url") 0%nat) = 0%nat.
Proof.
  apply (url_trigger_ignored Fake.happy newResponseWriter
           (Fake.inbound "update-url") 0%nat
           (Fake.trigger "https://evil.example/x"));
    [reflexivity | reflexivity | right; reflexivity].
Defined.

(** C3. A request whose body fails JSON decoding is answered with status
    400, a 4xx status, and the notifier is not invoked (no function of the
    pipeline is entered and no request leaves); and a status other than 200
    reaches the transport only when decoding failed. *)
Theorem undecodable_trigger_rejected
    (rt : Runtime) (rw : ResponseWriter) (r : ServerRequest) (w : World rt) :
  wroteHeader rw = false ->
  (forall err : error,
      DecodeUpdate rt (InBody r) = inl err ->
      transport_status (value (telegramHandler rt rw r w)) = StatusBadRequest /\
      400 <= transport_status (value (telegramHandler rt rw r w)) <= 499 /\
      acks (trace (telegramHandler rt rw r w)) = [400] /\
      notifications (trace (telegramHandler rt rw r w)) = [] /\
      requests (trace (telegramHandler rt rw r w)) = []) /\
  (transport_status (value (telegramHandler rt rw r w)) <> 200 ->
   exists err : error, DecodeUpdate rt (InBody r) = inl err).
Proof.
  intros fresh. split.
  - intros err Hdec.
    destruct (undecodable_trigger_run rw r w fresh err Hdec) as [Hs Ht].
    rewrite Hs, Ht. unfold StatusBadRequest.
    repeat split; lia.
  - intros Hne. destruct (DecodeUpdate rt (InBody r)) as [err | update] eqn:Hdec.
    + now exists err.
    + contradict Hne. exact (decoded_trigger_status rw r w fresh update Hdec).
Qed.

Lemma undecodable_trigger_rejected_witness :
  transport_status
    (value (telegramHandler Fake.happy newResponseWriter
              (Fake.inbound "garbage") 0%nat)) = StatusBadRequest /\
  notifications
    (trace (telegramHandler Fake.happy newResponseWriter
              (Fake.inbound "garbage") 0%nat)) = [] /\
  exists err : error,
    DecodeUpdate Fake.happy (InBody (Fake.inbound "garbage")) = inl err.
Proof.
  destruct (undecodable_trigger_rejected Fake.happy newResponseWriter
              (Fake.inbound "garbage") 0%nat eq_refl) as [Hfail Honly].
  destruct (Hfail (MkError "invalid character looking for beginning of value")
              eq_refl) as (Hs & _ & _ & Hn & _).
  split; [exact Hs | split; [exact Hn |]].
  apply Honly. rewrite Hs. discriminate.
Defined.

(** C4. When the resolver fails for identifier [X] with error [E], the
    notifier is invoked exactly once, with the empty parse mode (so that the
    request data carries no [parse_mode]) and a message in which both [X]
    and the text of [E] occur; neither the hashtag generator nor the
    publisher is entered. *)
Theorem resolver_failure_notified
    (rt : Runtime) (rw : ResponseWriter) (r : ServerRequest) (w : World rt)
    (update : TelegramUpdate) (E : error) :
  wroteHeader rw = false ->
  DecodeUpdate rt (InBody r) = inr update ->
  HasPrefix (Text (Message update)) "http://" = false ->
  HasPrefix (Text (Message update)) "https://" = false ->
  value (fetchArticle rt (Text (Message update)) w) = inl E ->
  exists message : string,
    notifications (trace (telegramHandler rt rw r w)) = [(message, EmptyString)] /\
    contains message (Text (Message update)) /\
    contains message (Error E) /\
    (forall chatID : string,
        requestData chatID message EmptyString !! "parse_mode" = None) /\
    generates (trace (telegramHandler rt rw r w)) = [] /\
    publishes (trace (telegramHandler rt rw r w)) = [].
Proof.
  intros fresh decoded H1 H2 Hfail.
  exists (fetchFailure rt (Text (Message update)) E).
  unfold notifications, generates, publishes.
  rewrite (valid_trigger_calls rw r w fresh update decoded H1 H2).
  unfold pipeline_calls. cbn zeta. rewrite Hfail.
  repeat split.
  - rewrite fetchFailure_text. apply contains_middle.
  - rewrite fetchFailure_text, <- !append_assoc. apply contains_end.
Qed.

Lemma resolver_failure_notified_witness :
  exists message : string,
    notifications
      (trace (telegramHandler Fake.happy newResponseWriter
                (Fake.inbound "update-missing") 0%nat))
    = [(message, EmptyString)] /\
    contains message "missing" /\
    contains message "unexpected status code: 404" /\
    (forall chatID : string,
        requestData chatID message EmptyString !! "parse_mode" = None) /\
    generates
      (trace (telegramHandler Fake.happy newResponseWriter
                (Fake.inbound "update-missing") 0%nat)) = [] /\
    publishes
      (trace (telegramHandler Fake.happy newResponseWriter
                (Fake.inbound "update-missing") 0%nat)) = [].
Proof.
  apply (resolver_failure_notified Fake.happy newResponseWriter
           (Fake.inbound "update-missing") 0%nat (Fake.trigger "missing")
           (MkError "unexpected status code: 404"));
    reflexivity.
Defined.


(** C5, as the code has it.  When all three stages succeed for identifier
    [X], the publisher is entered exactly once and exactly one request of
    the run goes to the tweet endpoint: the one built from the post text,
    quoted as the [text] of the payload.  The post text is the title, a
    newline, the hashtags, two newlines (an empty line) and the article URL
    with [X] in it. *)
Theorem publish_once_with_post_text
    (rt : Runtime) (rw : ResponseWriter) (r : ServerRequest) (w : World rt)
    (update : TelegramUpdate) (a : Article) (h : string) :
  wroteHeader rw = false ->
  DecodeUpdate rt (InBody r) = inr update ->
  HasPrefix (Text (Message update)) "http://" = false ->
  HasPrefix (Text (Message update)) "https://" = false ->
  all_stages_succeed rt (Text (Message update)) w a h ->
  publishes (trace (telegramHandler rt rw r w))
  = [(a, Text (Message update), h)] /\
  tweetText rt a (Text (Message update)) h
  = Title a ++ nl ++ h ++ nl ++ nl
    ++ "https://viewon.news/article.html?id=" ++ Text (Message update) /\
  map snd (tweet_requests (trace (telegramHandler rt rw r w)))
  = [tweetRequest rt a (Text (Message update)) h] /\
  Payload (tweetRequest rt a (Text (Message update)) h)
  = "{" ++ dq ++ "text" ++ dq ++ ": "
    ++ Quote rt (tweetText rt a (Text (Message update)) h) ++ "}".
Proof.
  intros fresh decoded H1 H2 Hok.
  split; [| split; [| split]].
  - unfold publishes.
    rewrite (valid_trigger_calls rw r w fresh update decoded H1 H2).
    destruct Hok as (Hf & Hg & Hp).
    unfold pipeline_calls. cbn zeta. rewrite Hf, Hg, Hp. reflexivity.
  - rewrite tweetText_text, articleURL_text. reflexivity.
  - rewrite (success_trace rw r w update a h fresh decoded H1 H2 Hok).
    destruct Hok as (_ & _ & Hp).
    destruct (postToTwitter_success _ _ _ _ Hp) as (Hreq & _).
    change (EvWriteHeader 200 :: ?l) with ([EvWriteHeader 200] ++ l)%list.
    rewrite !tweet_requests_app, !tweet_requests_log, tweet_requests_ack,
      fetchArticle_no_tweet, getHashtags_no_tweet,
      sendTelegramNotification_no_tweet.
    unfold tweet_requests. rewrite Hreq. reflexivity.
  - reflexivity.
Qed.

Lemma publish_once_with_post_text_witness :
  publishes (trace (telegramHandler Fake.happy newResponseWriter
                      (Fake.inbound "update-abc123") 0%nat))
  = [(Fake.article_T, "abc123", "#a #b #c")] /\
  tweetText Fake.happy Fake.article_T "abc123" "#a #b #c"
  = "T" ++ nl ++ "#a #b #c" ++ nl ++ nl
    ++ "https://viewon.news/article.html?id=" ++ "abc123" /\
  map snd (tweet_requests (trace (telegramHandler Fake.happy newResponseWriter
                                    (Fake.inbound "update-abc123") 0%nat)))
  = [tweetRequest Fake.happy Fake.article_T "abc123" "#a #b #c"] /\
  Payload (tweetRequest Fake.happy Fake.article_T "abc123" "#a #b #c")
  = "{" ++ dq ++ "text" ++ dq ++ ": "
    ++ Quote Fake.happy (tweetText Fake.happy Fake.article_T "abc123" "#a #b #c")
    ++ "}".
Proof.
  apply (publish_once_with_post_text Fake.happy newResponseWriter
           (Fake.inbound "update-abc123") 0%nat (Fake.trigger "abc123")
           Fake.article_T "#a #b #c");
    try reflexivity.
  repeat split; vm_compute; reflexivity.
Defined.

(** C5, as stated, fails: in the scenario of the specification all three
    stages succeed and the publisher is entered once, but the text it
    composes is not the three lines title, hashtags, URL: an empty line
    separates the hashtags from the URL. *)
Lemma post_text_not_three_lines :
  all_stages_succeed Fake.happy "abc123" 0%nat Fake.article_T "#a #b #c" /\
  publishes (trace (telegramHandler Fake.happy newResponseWriter
                      (Fake.inbound "update-abc123") 0%nat))
  = [(Fake.article_T, "abc123", "#a #b #c")] /\
  tweetText Fake.happy Fake.article_T "abc123" "#a #b #c"
  <> spec_post_text Fake.happy "T" "#a #b #c" "abc123".
Proof.
  split; [repeat split; vm_compute; reflexivity |].
  split; [vm_compute; reflexivity |].
  vm_compute. discriminate.
Qed.

(** C6. On full success for identifier [X] the status 200 is written to the
    transport first: nothing is notified before it, and after it the
    notifier is invoked exactly once, with parse mode [MarkdownV2] (which
    puts [parse_mode] into the request data) and the message
    [✅ Successfully posted article with ID: `X`]. *)
Theorem success_acknowledged_then_notified
    (rt : Runtime) (rw : ResponseWriter) (r : ServerRequest) (w : World rt)
    (update : TelegramUpdate) (a : Article) (h : string) :
  wroteHeader rw = false ->
  DecodeUpdate rt (InBody r) = inr update ->
  HasPrefix (Text (Message update)) "http://" = false ->
  HasPrefix (Text (Message update)) "https://" = false ->
  all_stages_succeed rt (Text (Message update)) w a h ->
  transport_status (value (telegramHandler rt rw r w)) = 200 /\
  exists (message : string) (before behind : list Event),
    message
    = "✅ Successfully posted article with ID: `" ++ Text (Message update) ++ "`" /\
    trace (telegramHandler rt rw r w)
    = (before ++ EvWriteHeader 200 :: behind)%list /\
    acks before = [] /\ notifications before = [] /\
    acks behind = [] /\ notifications behind = [(message, "MarkdownV2")] /\
    notifications (trace (telegramHandler rt rw r w)) = [(message, "MarkdownV2")] /\
    (forall chatID : string,
        requestData chatID message "MarkdownV2" !! "parse_mode"
        = Some "MarkdownV2").
Proof.
  intros fresh decoded H1 H2 Hok. split.
  - exact (valid_trigger_status rw r w fresh update decoded H1 H2).
  - exists (successMessage rt (Text (Message update))).
    eexists _, _. split; [reflexivity |]. split.
    + exact (success_trace rw r w update a h fresh decoded H1 H2 Hok).
    + unfold notifications.
      rewrite (valid_trigger_calls rw r w fresh update decoded H1 H2).
      destruct Hok as (Hf & Hg & Hp).
      unfold pipeline_calls. cbn zeta. rewrite Hf, Hg, Hp.
      observe. repeat split.
Qed.

Lemma success_acknowledged_then_notified_witness :
  transport_status
    (value (telegramHandler Fake.happy newResponseWriter
              (Fake.inbound "update-abc123") 0%nat)) = 200 /\
  exists (message : string) (before behind : list Event),
    message = "✅ Successfully posted article with ID: `" ++ "abc123" ++ "`" /\
    trace (telegramHandler Fake.happy newResponseWriter
             (Fake.inbound "update-abc123") 0%nat)
    = (before ++ EvWriteHeader 200 :: behind)%list /\
    acks before = [] /\ notifications before = [] /\
    acks behind = [] /\ notifications behind = [(message, "MarkdownV2")] /\
    notifications (trace (telegramHandler Fake.happy newResponseWriter
                            (Fake.inbound "update-abc123") 0%nat))
    = [(message, "MarkdownV2")] /\
    (forall chatID : string,
        requestData chatID message "MarkdownV2" !! "parse_mode"
        = Some "MarkdownV2").
Proof.
  apply (success_acknowledged_then_notified Fake.happy newResponseWriter
           (Fake.inbound "update-abc123") 0%nat (Fake.trigger "abc123")
           Fake.article_T "#a #b #c");
    try reflexivity.
  repeat split; vm_compute; reflexivity.
Defined.




(** C8. The hashtag generator has sent its request and the language-model
    endpoint has answered with status 200 and a body that is read to its end
    and decodes.  With at least one completion the generator returns the
    content of the first one, as it is; it returns the error
    [no content found in OpenRouter response] exactly when there is no
    completion. *)
Theorem hashtags_first_completion
    (rt : Runtime) (title description body : string) (w w' : World rt)
    (resp : Response) (decodedResponse : OpenRouterResponse) :
  Getenv rt w "OPENROUTER_API_KEY" <> EmptyString ->
  MarshalRequest rt
    {| Model := "deepseek/deepseek-r1:free";
       Messages := [ {| Role := "user";
                        Content := prompt rt title description |} ] |}
  = inr body ->
  NewRequestCheck rt "POST" openRouterURL = None ->
  Do rt PlainClient
     (completionRequest (Getenv rt w "OPENROUTER_API_KEY") body) w
  = (inr resp, w') ->
  StatusCode resp = StatusOK ->
  fault (Body resp) = None ->
  UnmarshalResponse rt (data (Body resp)) = inr decodedResponse ->
  (forall (first : OpenRouterChoice) (others : list OpenRouterChoice),
      Choices decodedResponse = first :: others ->
      value (getHashtags rt title description w) = inr (ChoiceContent first)) /\
  (value (getHashtags rt title description w)
   = inl (MkError "no content found in OpenRouter response")
   <-> Choices decodedResponse = []).
Proof.
  intros Hkey Hmarshal Hcheck Hdo Hstatus Hfault Hdecode.
  apply String.eqb_neq in Hkey.
  assert (Hrun : value (getHashtags rt title description w)
                 = match Choices decodedResponse with
                   | c :: _ => inr (ChoiceContent c)
                   | [] => inl (MkError "no content found in OpenRouter response")
                   end).
  { unfold getHashtags, http_NewRequest.
    rewrite Hcheck.
    fold (completionRequest (Getenv rt w "OPENROUTER_API_KEY") body).
    run_along ltac:(rewrite ?Hkey, ?Hmarshal).
    fold (completionRequest (Getenv rt w "OPENROUTER_API_KEY") body).
    rewrite Hdo. cbn [fst].
    run_along ltac:(rewrite ?Hfault, ?Hstatus, ?Hdecode).
    destruct (Choices decodedResponse); reflexivity. }
  rewrite Hrun. split.
  - intros first others ->. reflexivity.
  - destruct (Choices decodedResponse); split; intros H;
      first [ reflexivity | discriminate H ].
Qed.

Lemma hashtags_first_completion_witness :
  value (getHashtags Fake.happy "T" "D" 1%nat) = inr "#a #b #c" /\
  (value (getHashtags (Fake.runtime (Fake.scenario 201 [])) "T" "D" 1%nat)
   = inl (MkError "no content found in OpenRouter response")).
Proof.
  split.
  - exact (proj1 (hashtags_first_completion Fake.happy "T" "D" _ 1%nat 2%nat
             {| StatusCode := 200;
                Body := {| data := "completion-json"; fault := None |} |}
             {| Choices := [ {| ChoiceContent := "#a #b #c" |} ] |}
             ltac:(vm_compute; discriminate)
             eq_refl eq_refl eq_refl eq_refl eq_refl eq_refl)
             {| ChoiceContent := "#a #b #c" |} [] eq_refl).
  - exact (proj2 (proj2 (hashtags_first_completion
             (Fake.runtime (Fake.scenario 201 [])) "T" "D" _ 1%nat 2%nat
             {| StatusCode := 200;
                Body := {| data := "completion-json"; fault := None |} |}
             {| Choices := [] |}
             ltac:(vm_compute; discriminate)
             eq_refl eq_refl eq_refl eq_refl eq_refl eq_refl)) eq_refl).
Defined.

(** C9, as the code has it.  For a valid trigger the resolver is entered
    exactly once and the notifier exactly once; the generator and the
    publisher are entered at most once each, the publisher exactly once when
    the resolver and the generator both succeed and not at all otherwise;
    and no endpoint is sent two requests, so nothing is retried. *)
Theorem at_most_one_attempt_per_stage
    (rt : Runtime) (rw : ResponseWriter) (r : ServerRequest) (w : World rt)
    (update : TelegramUpdate) :
  wroteHeader rw = false ->
  DecodeUpdate rt (InBody r) = inr update ->
  HasPrefix (Text (Message update)) "http://" = false ->
  HasPrefix (Text (Message update)) "https://" = false ->
  length (resolves (trace (telegramHandler rt rw r w))) = 1%nat /\
  (length (generates (trace (telegramHandler rt rw r w))) <= 1)%nat /\
  (length (publishes (trace (telegramHandler rt rw r w))) <= 1)%nat /\
  length (notifications (trace (telegramHandler rt rw r w))) = 1%nat /\
  (length (publishes (trace (telegramHandler rt rw r w))) = 1%nat
   <-> exists (a : Article) (h : string),
         value (fetchArticle rt (Text (Message update)) w) = inr a /\
         value (getHashtags rt (Title a) (Description a)
                  (after (fetchArticle rt (Text (Message update)) w))) = inr h) /\
  NoDup (urls (trace (telegramHandler rt rw r w))).
Proof.
  intros fresh decoded H1 H2.
  pose proof (valid_trigger_calls rw r w fresh update decoded H1 H2) as Hcalls.
  pose proof (valid_trigger_urls rw r w update fresh decoded H1 H2) as Hurls.
  unfold resolves, generates, publishes, notifications. rewrite Hcalls.
  clear Hcalls. unfold pipeline_calls. cbn zeta.
  destruct (value (fetchArticle rt (Text (Message update)) w))
    as [e | a] eqn:Hf.
  { cbn. do 4 (split; [lia |]). split; [| assumption].
    split; [discriminate |]. intros (a' & h' & Ha & _). discriminate Ha. }
  destruct (value (getHashtags rt (Title a) (Description a)
                     (after (fetchArticle rt (Text (Message update)) w))))
    as [e | h] eqn:Hg.
  { cbn. do 4 (split; [lia |]). split; [| assumption].
    split; [discriminate |]. intros (a' & h' & Ha & Hh). injection Ha as <-.
    rewrite Hg in Hh. discriminate Hh. }
  destruct (value (postToTwitter rt a (Text (Message update)) h
                     (after (getHashtags rt (Title a) (Description a)
                               (after (fetchArticle rt
                                         (Text (Message update)) w))))));
    cbn; (do 4 (split; [lia |])); (split; [| assumption]);
    (split; [intros _; exists a, h; split; [reflexivity | assumption] | lia]).
Qed.

Lemma at_most_one_attempt_per_stage_witness :
  length (resolves (trace (telegramHandler Fake.happy newResponseWriter
                             (Fake.inbound "update-missing") 0%nat))) = 1%nat /\
  (length (generates (trace (telegramHandler Fake.happy newResponseWriter
                               (Fake.inbound "update-missing") 0%nat))) <= 1)%nat /\
  (length (publishes (trace (telegramHandler Fake.happy newResponseWriter
                               (Fake.inbound "update-missing") 0%nat))) <= 1)%nat /\
  length (notifications (trace (telegramHandler Fake.happy newResponseWriter
                                  (Fake.inbound "update-missing") 0%nat))) = 1%nat /\
  (length (publishes (trace (telegramHandler Fake.happy newResponseWriter
                               (Fake.inbound "update-missing") 0%nat))) = 1%nat
   <-> exists (a : Article) (h : string),
         value (fetchArticle Fake.happy "missing" 0%nat) = inr a /\
         value (getHashtags Fake.happy (Title a) (Description a)
                  (after (fetchArticle Fake.happy "missing" 0%nat))) = inr h) /\
  NoDup (urls (trace (telegramHandler Fake.happy newResponseWriter
                        (Fake.inbound "update-missing") 0%nat))).
Proof.
  apply (at_most_one_attempt_per_stage Fake.happy newResponseWriter
           (Fake.inbound "update-missing") 0%nat (Fake.trigger "missing"));
    reflexivity.
Defined.

(** C9, as stated, fails: the trigger [missing] decodes and is not a URL,
    the resolver gets a 404, and the run makes no publish attempt at all
    rather than exactly one. *)
Lemma no_publish_when_resolver_fails :
  DecodeUpdate Fake.happy (InBody (Fake.inbound "update-missing"))
  = inr (Fake.trigger "missing") /\
  HasPrefix "missing" "http://" = false /\
  HasPrefix "missing" "https://" = false /\
  length (publishes (trace (telegramHandler Fake.happy newResponseWriter
                              (Fake.inbound "update-missing") 0%nat)))
  <> 1%nat /\
  tweet_requests (trace (telegramHandler Fake.happy newResponseWriter
                           (Fake.inbound "update-missing") 0%nat)) = [].
Proof. repeat split. vm_compute. discriminate. Qed.

(** C10. The post depends on the article through its title only: for two
    articles with the same title, the same identifier and the same hashtags,
    the post text and the payload are equal, and the publisher, run from the
    same world, hands the same requests to its client, returns the same
    result and leaves the same world. *)
Theorem post_text_ignores_description_and_image
    (rt : Runtime) (a1 a2 : Article) (id hashtags : string) (w : World rt) :
  Title a1 = Title a2 ->
  tweetText rt a1 id hashtags = tweetText rt a2 id hashtags /\
  payload rt a1 id hashtags = payload rt a2 id hashtags /\
  requests (trace (postToTwitter rt a1 id hashtags w))
  = requests (trace (postToTwitter rt a2 id hashtags w)) /\
  value (postToTwitter rt a1 id hashtags w)
  = value (postToTwitter rt a2 id hashtags w) /\
  after (postToTwitter rt a1 id hashtags w)
  = after (postToTwitter rt a2 id hashtags w).
Proof.
  intros Htitle.
  assert (Htext : tweetText rt a1 id hashtags = tweetText rt a2 id hashtags).
  { unfold tweetText. now rewrite Htitle. }
  assert (Hpayload : payload rt a1 id hashtags = payload rt a2 id hashtags).
  { unfold payload. now rewrite Htext. }
  split; [exact Htext |]. split; [exact Hpayload |].
  unfold postToTwitter. rewrite Hpayload.
  rewrite !trace_bind, !value_bind, !after_bind, !requests_app.
  repeat split.
Qed.

Lemma post_text_ignores_description_and_image_witness :
  Description Fake.article_T <> Description Fake.other_T /\
  Image Fake.article_T <> Image Fake.other_T /\
  tweetText Fake.happy Fake.article_T "abc123" "#a #b #c"
  = tweetText Fake.happy Fake.other_T "abc123" "#a #b #c" /\
  payload Fake.happy Fake.article_T "abc123" "#a #b #c"
  = payload Fake.happy Fake.other_T "abc123" "#a #b #c".
Proof.
  split; [discriminate |]. split; [discriminate |].
  destruct (post_text_ignores_description_and_image Fake.happy
              Fake.article_T Fake.other_T "abc123" "#a #b #c" 2%nat eq_refl)
    as (Htext & Hpayload & _).
  split; assumption.
Defined.

(** * Further properties of the code *)

(** ** The formatted URLs *)

Lemma lookupURL_inline (rt : Runtime) (id : string) :
  Sprintf (Quote rt) "https://viewon.news/notion.php?id=%s" [AStr id]
  = "https://viewon.news/notion.php?id=" ++ id.
Proof.
  transitivity ("https://viewon.news/notion.php?id=" ++ id ++ EmptyString);
    [reflexivity | now rewrite append_nil_r].
Qed.

Lemma notifyURL_inline (rt : Runtime) (botToken : string) :
  Sprintf (Quote rt) "https://api.telegram.org/bot%s/sendMessage" [AStr botToken]
  = "https://api.telegram.org/bot" ++ botToken ++ "/sendMessage".
Proof. reflexivity. Qed.

(** ** sendTelegramNotification *)

(** X1. Without a bot token or without a chat id the notifier only logs a
    warning: it builds no request and leaves the world as it was. *)
Theorem notifier_without_credentials
    (rt : Runtime) (message parseMode : string) (w : World rt) :
  Getenv rt w "TELEGRAM_BOT_TOKEN" = EmptyString
  \/ Getenv rt w "TELEGRAM_CHAT_ID" = EmptyString ->
  sendTelegramNotification rt message parseMode w
  = (tt, w,
     [ EvCall (CallSendTelegramNotification message parseMode);
       EvLog "WARNING: TELEGRAM_BOT_TOKEN or TELEGRAM_CHAT_ID not set. Cannot send notification." ]).
Proof.
  intros Hmissing.
  assert (Hor : String.eqb (Getenv rt w "TELEGRAM_BOT_TOKEN") EmptyString
                || String.eqb (Getenv rt w "TELEGRAM_CHAT_ID") EmptyString
                = true).
  { destruct Hmissing as [-> | ->]; [reflexivity | apply orb_true_r]. }
  unfold sendTelegramNotification.
  rewrite (run_eta (bind _ _ _)).
  run_along ltac:(rewrite ?Hor). reflexivity.
Qed.

Lemma notifier_without_credentials_witness :
  sendTelegramNotification
    (Fake.with_env [("TELEGRAM_BOT_TOKEN", "tok")]) "hello" EmptyString 7%nat
  = (tt, 7%nat,
     [ EvCall (CallSendTelegramNotification "hello" EmptyString);
       EvLog "WARNING: TELEGRAM_BOT_TOKEN or TELEGRAM_CHAT_ID not set. Cannot send notification." ]).
Proof.
  apply (notifier_without_credentials
           (Fake.with_env [("TELEGRAM_BOT_TOKEN", "tok")])).
  right. reflexivity.
Defined.

(** X2. With token and chat id set, the request data marshalled and the
    request accepted, the notifier hands exactly one request to the default
    client: a POST of the marshalled data, as JSON, to the [sendMessage]
    URL of the bot.  Whatever comes back, an error or any status, nothing
    more is sent, and the world is the one that request left. *)
Theorem notifier_sends_one_post
    (rt : Runtime) (message parseMode body : string) (w : World rt) :
  Getenv rt w "TELEGRAM_BOT_TOKEN" <> EmptyString ->
  Getenv rt w "TELEGRAM_CHAT_ID" <> EmptyString ->
  MarshalMap rt (requestData (Getenv rt w "TELEGRAM_CHAT_ID") message parseMode)
  = inr body ->
  NewRequestCheck rt "POST"
    ("https://api.telegram.org/bot" ++ Getenv rt w "TELEGRAM_BOT_TOKEN"
     ++ "/sendMessage") = None ->
  requests (trace (sendTelegramNotification rt message parseMode w))
  = [ (PlainClient, notifyRequest (Getenv rt w "TELEGRAM_BOT_TOKEN") body) ] /\
  after (sendTelegramNotification rt message parseMode w)
  = snd (Do rt PlainClient
           (notifyRequest (Getenv rt w "TELEGRAM_BOT_TOKEN") body) w) /\
  Header (notifyRequest (Getenv rt w "TELEGRAM_BOT_TOKEN") body)
  !! "Content-Type" = Some "application/json".
Proof.
  intros Htok Hchat Hmarshal Hcheck.
  apply String.eqb_neq in Htok, Hchat.
  rewrite <- notifyURL_inline with (rt := rt) in Hcheck.
  unfold notifyRequest.
  rewrite <- !notifyURL_inline with (rt := rt).
  split; [| split].
  - unfold sendTelegramNotification, http_Post, http_NewRequest.
    run_along ltac:(rewrite ?Htok, ?Hchat, ?Hmarshal, ?Hcheck; cbn [orb]).
    run; reflexivity.
  - unfold sendTelegramNotification, http_Post, http_NewRequest.
    run_along ltac:(rewrite ?Htok, ?Hchat, ?Hmarshal, ?Hcheck; cbn [orb]).
    run; reflexivity.
  - apply lookup_insert_eq.
Qed.

Lemma notifier_sends_one_post_witness :
  requests (trace (sendTelegramNotification Fake.happy "hello" EmptyString 0%nat))
  = [ (PlainClient,
       notifyRequest "tok"
         ("{" ++ Fake.quote "chat_id" ++ ":" ++ Fake.quote "42" ++ ","
          ++ Fake.quote "text" ++ ":" ++ Fake.quote "hello" ++ "}")) ].
Proof.
  refine (proj1 (notifier_sends_one_post Fake.happy "hello" EmptyString _ 0%nat
                   _ _ eq_refl eq_refl)).
  - vm_compute; discriminate.
  - vm_compute; discriminate.
Defined.

(** X3. The request data of a notification: [chat_id] and [text] are always
    present, [parse_mode] is present exactly when the parse mode is not
    empty, and there is no other key. *)
Theorem requestData_keys (chatID message parseMode key : string) :
  requestData chatID message parseMode !! key
  = if String.eqb key "chat_id" then Some chatID
    else if String.eqb key "text" then Some message
    else if String.eqb key "parse_mode"
         then (if String.eqb parseMode EmptyString then None else Some parseMode)
    else None.
Proof.
  unfold requestData.
  destruct (String.eqb_spec key "chat_id") as [-> | Hc].
  { destruct (String.eqb parseMode EmptyString); cbn [negb];
      rewrite ?lookup_insert_ne by discriminate;
      apply lookup_insert_eq. }
  destruct (String.eqb_spec key "text") as [-> | Ht].
  { destruct (String.eqb parseMode EmptyString); cbn [negb];
      rewrite ?lookup_insert_ne by discriminate;
      apply lookup_insert_eq. }
  destruct (String.eqb_spec key "parse_mode") as [-> | Hp].
  { destruct (String.eqb parseMode EmptyString); cbn [negb].
    - rewrite !lookup_insert_ne by discriminate. apply lookup_empty.
    - apply lookup_insert_eq. }
  destruct (String.eqb parseMode EmptyString); cbn [negb];
    rewrite !lookup_insert_ne by congruence; apply lookup_empty.
Qed.

(** A formatted text whose last verb ends the format: the printed operand
    is followed by the empty rest. *)
Ltac formatted :=
  lazymatch goal with
  | |- _ = ?text =>
      transitivity (text ++ EmptyString); [reflexivity | apply append_nil_r]
  end.

(** ** fetchArticle *)

Section Resolver.

Context {rt : Runtime}.
Variables (id : string) (w : World rt).

(** The result of [fetchArticle], test by test. *)
Lemma fetchArticle_value :
  value (fetchArticle rt id w)
  = match NewRequestCheck rt "GET" ("https://viewon.news/notion.php?id=" ++ id) with
    | Some err => inl (MkError ("could not fetch article: " ++ Error err))
    | None =>
        match fst (Do rt PlainClient (lookupRequest id) w) with
        | inl err => inl (MkError ("could not fetch article: " ++ Error err))
        | inr resp =>
            if StatusCode resp =? StatusOK then
              match DecodeArticle rt (Body resp) with
              | inl err =>
                  inl (MkError ("could not decode article data: " ++ Error err))
              | inr article => inr article
              end
            else inl (MkError ("unexpected status code: "
                               ++ fmt_d (StatusCode resp)))
        end
    end.
Proof.
  unfold fetchArticle, http_Get, http_NewRequest, lookupRequest.
  rewrite lookupURL_inline.
  run; unfold Errorf;
    try match goal with
        | H : negb true = true |- _ => discriminate H
        | H : negb false = false |- _ => discriminate H
        end;
    try reflexivity; f_equal; f_equal; formatted.
Qed.

(** What [fetchArticle] sends and the world it leaves. *)
Lemma fetchArticle_sent :
  NewRequestCheck rt "GET" ("https://viewon.news/notion.php?id=" ++ id) = None ->
  requests (trace (fetchArticle rt id w)) = [(PlainClient, lookupRequest id)] /\
  after (fetchArticle rt id w) = snd (Do rt PlainClient (lookupRequest id) w).
Proof.
  intros Hcheck.
  unfold fetchArticle, http_Get, http_NewRequest, lookupRequest.
  rewrite lookupURL_inline, Hcheck.
  split; run; reflexivity.
Qed.

End Resolver.

(** X4. The resolver returns an article exactly when the request is
    accepted, the content API answers it with status 200 and the body of
    the answer decodes; the article returned is the decoded one. *)
Theorem resolver_success_iff
    (rt : Runtime) (id : string) (w : World rt) (a : Article) :
  value (fetchArticle rt id w) = inr a
  <-> NewRequestCheck rt "GET" ("https://viewon.news/notion.php?id=" ++ id) = None /\
      exists resp : Response,
        fst (Do rt PlainClient (lookupRequest id) w) = inr resp /\
        StatusCode resp = StatusOK /\
        DecodeArticle rt (Body resp) = inr a.
Proof.
  rewrite fetchArticle_value. split.
  - destruct (NewRequestCheck rt "GET" _); [discriminate |].
    destruct (fst (Do rt PlainClient (lookupRequest id) w)) as [err | resp];
      [discriminate |].
    destruct (Z.eqb_spec (StatusCode resp) StatusOK) as [Hs | Hs];
      [| discriminate].
    destruct (DecodeArticle rt (Body resp)) as [err | a'] eqn:Hd;
      [discriminate |].
    intros [= ->]. split; [reflexivity |]. now exists resp.
  - intros (-> & resp & -> & Hs & Hd).
    rewrite Hs, Hd. reflexivity.
Qed.

(** X5. Any status other than 200 from the content API is an error that
    names the status; the body is not looked at, whether it decodes or
    not. *)
Theorem resolver_rejects_other_status
    (rt : Runtime) (id : string) (w w' : World rt) (resp : Response) :
  NewRequestCheck rt "GET" ("https://viewon.news/notion.php?id=" ++ id) = None ->
  Do rt PlainClient (lookupRequest id) w = (inr resp, w') ->
  StatusCode resp <> StatusOK ->
  value (fetchArticle rt id w)
  = inl (MkError ("unexpected status code: " ++ fmt_d (StatusCode resp))) /\
  after (fetchArticle rt id w) = w'.
Proof.
  intros Hcheck Hdo Hs. split.
  - rewrite fetchArticle_value, Hcheck, Hdo. cbn [fst].
    destruct (Z.eqb_spec (StatusCode resp) StatusOK) as [Heq | _];
      [contradiction | reflexivity].
  - rewrite (proj2 (fetchArticle_sent id w Hcheck)), Hdo. reflexivity.
Qed.

Lemma resolver_rejects_other_status_witness :
  value (fetchArticle Fake.happy "missing" 0%nat)
  = inl (MkError ("unexpected status code: " ++ fmt_d 404)) /\
  after (fetchArticle Fake.happy "missing" 0%nat) = 1%nat.
Proof.
  apply (resolver_rejects_other_status Fake.happy "missing" 0%nat 1%nat
           {| StatusCode := 404;
              Body := {| data := "not found"; fault := None |} |});
    [reflexivity | reflexivity | discriminate].
Defined.

(** X6. The resolver hands exactly one request to the default client,
    whatever the answer: a GET without header or body whose URL is the
    lookup URL followed by the identifier, unescaped.  When the request is
    refused before it is sent, nothing is sent and the world is as it was. *)
Theorem resolver_sends_one_get
    (rt : Runtime) (id : string) (w : World rt) :
  (NewRequestCheck rt "GET" ("https://viewon.news/notion.php?id=" ++ id) = None ->
   requests (trace (fetchArticle rt id w)) = [(PlainClient, lookupRequest id)] /\
   after (fetchArticle rt id w) = snd (Do rt PlainClient (lookupRequest id) w)) /\
  (forall err : error,
      NewRequestCheck rt "GET" ("https://viewon.news/notion.php?id=" ++ id)
      = Some err ->
      requests (trace (fetchArticle rt id w)) = [] /\
      after (fetchArticle rt id w) = w /\
      value (fetchArticle rt id w)
      = inl (MkError ("could not fetch article: " ++ Error err))).
Proof.
  split.
  - apply fetchArticle_sent.
  - intros err Hcheck. rewrite fetchArticle_value, Hcheck.
    unfold fetchArticle, http_Get, http_NewRequest.
    rewrite lookupURL_inline, Hcheck.
    repeat split; run; reflexivity.
Qed.

Lemma resolver_sends_one_get_witness :
  requests (trace (fetchArticle Fake.happy "a b&c" 0%nat))
  = [ (PlainClient,
       {| Method := "GET"; URL := "https://viewon.news/notion.php?id=a b&c";
          Header := ∅; Payload := EmptyString |}) ].
Proof.
  exact (proj1 (proj1 (resolver_sends_one_get Fake.happy "a b&c" 0%nat)
                  eq_refl)).
Defined.

(** X7. Every error of the resolver is one of three: the transport's error
    behind [could not fetch article: ], a status other than 200 behind
    [unexpected status code: ], or the decoder's error behind
    [could not decode article data: ]. *)
Theorem resolver_error_texts
    (rt : Runtime) (id : string) (w : World rt) (e : error) :
  value (fetchArticle rt id w) = inl e ->
  (exists err : error, Error e = "could not fetch article: " ++ Error err) \/
  (exists code : Z,
      code <> StatusOK /\ Error e = "unexpected status code: " ++ fmt_d code) \/
  (exists err : error, Error e = "could not decode article data: " ++ Error err).
Proof.
  rewrite fetchArticle_value.
  destruct (NewRequestCheck rt "GET" _) as [err |].
  { intros [= <-]. left. now exists err. }
  destruct (fst (Do rt PlainClient (lookupRequest id) w)) as [err | resp].
  { intros [= <-]. left. now exists err. }
  destruct (Z.eqb_spec (StatusCode resp) StatusOK) as [Hs | Hs].
  - destruct (DecodeArticle rt (Body resp)) as [err | a]; [| discriminate].
    intros [= <-]. right. right. now exists err.
  - intros [= <-]. right. left. now exists (StatusCode resp).
Qed.

Lemma resolver_error_texts_witness :
  (exists err : error,
      Error (MkError "unexpected status code: 404")
      = "could not fetch article: " ++ Error err) \/
  (exists code : Z,
      code <> StatusOK /\
      Error (MkError "unexpected status code: 404")
      = "unexpected status code: " ++ fmt_d code) \/
  (exists err : error,
      Error (MkError "unexpected status code: 404")
      = "could not decode article data: " ++ Error err).
Proof.
  exact (resolver_error_texts Fake.happy "missing" 0%nat
           (MkError "unexpected status code: 404") eq_refl).
Defined.

(** ** getHashtags *)

Section Generator.

Context {rt : Runtime}.
Variables (title description : string) (w : World rt).

Local Abbreviation apiKey := (Getenv rt w "OPENROUTER_API_KEY").

(** The result of [getHashtags], test by test. *)
Lemma getHashtags_value :
  value (getHashtags rt title description w)
  = if String.eqb apiKey EmptyString
    then inl (MkError "OPENROUTER_API_KEY not set")
    else
      match MarshalRequest rt (completionBody rt title description) with
      | inl err => inl (MkError ("failed to marshal request body: " ++ Error err))
      | inr body =>
          match NewRequestCheck rt "POST" openRouterURL with
          | Some err => inl (MkError ("failed to create request: " ++ Error err))
          | None =>
              match fst (Do rt PlainClient (completionRequest apiKey body) w) with
              | inl err =>
                  inl (MkError ("failed to send request to OpenRouter: "
                                ++ Error err))
              | inr resp =>
                  match fault (Body resp) with
                  | Some err =>
                      inl (MkError
                             ("failed to read response body from OpenRouter: "
                              ++ Error err))
                  | None =>
                      if StatusCode resp =? StatusOK then
                        match UnmarshalResponse rt (data (Body resp)) with
                        | inl err =>
                            inl (MkError
                                   ("failed to unmarshal OpenRouter response: "
                                    ++ Error err))
                        | inr decoded =>
                            match Choices decoded with
                            | c :: _ => inr (ChoiceContent c)
                            | [] =>
                                inl (MkError
                                       "no content found in OpenRouter response")
                            end
                        end
                      else
                        inl (MkError
                               ("received non-200 status from OpenRouter: "
                                ++ data (Body resp)))
                  end
              end
          end
      end.
Proof.
  unfold getHashtags, http_NewRequest, completionBody, completionRequest.
  run; unfold Errorf;
    try match goal with
        | H : negb true = true |- _ => discriminate H
        | H : negb false = false |- _ => discriminate H
        end;
    try reflexivity; f_equal; f_equal; formatted.
Qed.

(** What [getHashtags] sends once it has a key, a body and a request. *)
Lemma getHashtags_sent (body : string) :
  apiKey <> EmptyString ->
  MarshalRequest rt (completionBody rt title description) = inr body ->
  NewRequestCheck rt "POST" openRouterURL = None ->
  requests (trace (getHashtags rt title description w))
  = [(PlainClient, completionRequest apiKey body)] /\
  after (getHashtags rt title description w)
  = snd (Do rt PlainClient (completionRequest apiKey body) w).
Proof.
  intros Hkey Hmarshal Hcheck. apply String.eqb_neq in Hkey.
  unfold completionBody in Hmarshal.
  unfold getHashtags, http_NewRequest, completionRequest.
  rewrite Hcheck.
  split;
    run_along ltac:(rewrite ?Hkey, ?Hmarshal); run; reflexivity.
Qed.

Lemma prompt_text :
  prompt rt title description
  = "Based on the following news article title and description, generate 3-5 relevant hashtags for a tweet. Do not include any other text, just the hashtags starting with #."
    ++ nl ++ nl ++ "Title: " ++ title ++ nl ++ "Description: " ++ description.
Proof.
  transitivity
    ("Based on the following news article title and description, generate 3-5 relevant hashtags for a tweet. Do not include any other text, just the hashtags starting with #."
     ++ nl ++ nl ++ "Title: " ++ title ++ nl ++ "Description: " ++ description
     ++ EmptyString);
    [reflexivity | now rewrite append_nil_r].
Qed.

End Generator.

(** X8. Without an API key the generator fails at once with
    [OPENROUTER_API_KEY not set]: it marshals nothing, sends nothing and
    leaves the world as it was. *)
Theorem generator_without_key
    (rt : Runtime) (title description : string) (w : World rt) :
  Getenv rt w "OPENROUTER_API_KEY" = EmptyString ->
  getHashtags rt title description w
  = (inl (MkError "OPENROUTER_API_KEY not set"), w,
     [EvCall (CallGetHashtags title description)]).
Proof.
  intros Hkey. unfold getHashtags.
  rewrite (run_eta (bind _ _ _)).
  run_along ltac:(rewrite ?Hkey; cbn [String.eqb]). reflexivity.
Qed.

Lemma generator_without_key_witness :
  getHashtags (Fake.with_env []) "T" "D" 3%nat
  = (inl (MkError "OPENROUTER_API_KEY not set"), 3%nat,
     [EvCall (CallGetHashtags "T" "D")]).
Proof.
  apply (generator_without_key (Fake.with_env [])).
  reflexivity.
Defined.

(** X9. A status other than 200 from the language-model endpoint, with a
    body that was read, is an error that carries that body; the body is not
    unmarshalled, whether it would decode or not. *)
Theorem generator_rejects_other_status
    (rt : Runtime) (title description body : string) (w w' : World rt)
    (resp : Response) :
  Getenv rt w "OPENROUTER_API_KEY" <> EmptyString ->
  MarshalRequest rt (completionBody rt title description) = inr body ->
  NewRequestCheck rt "POST" openRouterURL = None ->
  Do rt PlainClient
     (completionRequest (Getenv rt w "OPENROUTER_API_KEY") body) w
  = (inr resp, w') ->
  fault (Body resp) = None ->
  StatusCode resp <> StatusOK ->
  value (getHashtags rt title description w)
  = inl (MkError ("received non-200 status from OpenRouter: "
                  ++ data (Body resp))).
Proof.
  intros Hkey Hmarshal Hcheck Hdo Hfault Hs.
  apply String.eqb_neq in Hkey.
  rewrite getHashtags_value, Hkey, Hmarshal, Hcheck, Hdo. cbn [fst].
  rewrite Hfault.
  destruct (Z.eqb_spec (StatusCode resp) StatusOK) as [Heq | _];
    [contradiction | reflexivity].
Qed.

Lemma generator_rejects_other_status_witness :
  value (getHashtags (Fake.with_net (fun _ _ => Fake.ok 429 "slow down"))
           "T" "D" 0%nat)
  = inl (MkError ("received non-200 status from OpenRouter: " ++ "slow down")).
Proof.
  refine (generator_rejects_other_status
            (Fake.with_net (fun _ _ => Fake.ok 429 "slow down"))
            "T" "D" _ 0%nat 1%nat
            {| StatusCode := 429;
               Body := {| data := "slow down"; fault := None |} |}
            _ eq_refl eq_refl eq_refl eq_refl _).
  - vm_compute; discriminate.
  - discriminate.
Defined.

(** X10. With a key, a marshalled body and an accepted request, the
    generator hands exactly one request to the client, whatever the answer:
    a POST to the completions endpoint that carries the key as bearer
    token and is typed as JSON.  The body is marshalled from one user
    message on model [deepseek/deepseek-r1:free] whose content is the
    prompt, in which title and description occur as they are. *)
Theorem generator_sends_one_post
    (rt : Runtime) (title description body : string) (w : World rt) :
  Getenv rt w "OPENROUTER_API_KEY" <> EmptyString ->
  MarshalRequest rt (completionBody rt title description) = inr body ->
  NewRequestCheck rt "POST" openRouterURL = None ->
  requests (trace (getHashtags rt title description w))
  = [ (PlainClient,
       completionRequest (Getenv rt w "OPENROUTER_API_KEY") body) ] /\
  Header (completionRequest (Getenv rt w "OPENROUTER_API_KEY") body)
  !! "Authorization" = Some ("Bearer " ++ Getenv rt w "OPENROUTER_API_KEY") /\
  Header (completionRequest (Getenv rt w "OPENROUTER_API_KEY") body)
  !! "Content-Type" = Some "application/json" /\
  map Role (Messages (completionBody rt title description)) = ["user"] /\
  (forall m : OpenRouterMessage,
      In m (Messages (completionBody rt title description)) ->
      contains (Content m) title /\ contains (Content m) description).
Proof.
  intros Hkey Hmarshal Hcheck.
  split; [exact (proj1 (getHashtags_sent title description w body
                          Hkey Hmarshal Hcheck)) |].
  split.
  { unfold completionRequest, Header_Set. cbn [Header].
    rewrite lookup_insert_ne by discriminate. apply lookup_insert_eq. }
  split; [apply lookup_insert_eq |].
  split; [reflexivity |].
  intros m [<- | []]. cbn [Content]. rewrite prompt_text. split.
  - rewrite <- (append_assoc _ nl), <- (append_assoc _ nl),
      <- (append_assoc _ "Title: ").
    apply contains_middle.
  - rewrite <- !append_assoc. apply contains_end.
Qed.

Lemma generator_sends_one_post_witness :
  urls (trace (getHashtags Fake.happy "T" "D" 5%nat))
  = ["https://openrouter.ai/api/v1/chat/completions"].
Proof.
  unfold urls.
  rewrite (proj1 (generator_sends_one_post Fake.happy "T" "D" _ 5%nat
                    ltac:(vm_compute; discriminate) eq_refl eq_refl)).
  reflexivity.
Defined.

(** X11. The generator returns hashtags only from a 200 answer that was
    read and decoded and holds at least one completion: what it returns is
    the content of the first one. *)
Theorem generator_success_only_from_200
    (rt : Runtime) (title description : string) (w : World rt) (h : string) :
  value (getHashtags rt title description w) = inr h ->
  Getenv rt w "OPENROUTER_API_KEY" <> EmptyString /\
  exists (body : string) (resp : Response) (decoded : OpenRouterResponse)
         (first : OpenRouterChoice) (others : list OpenRouterChoice),
    MarshalRequest rt (completionBody rt title description) = inr body /\
    fst (Do rt PlainClient
           (completionRequest (Getenv rt w "OPENROUTER_API_KEY") body) w)
    = inr resp /\
    StatusCode resp = StatusOK /\
    fault (Body resp) = None /\
    UnmarshalResponse rt (data (Body resp)) = inr decoded /\
    Choices decoded = first :: others /\
    h = ChoiceContent first.
Proof.
  rewrite getHashtags_value.
  destruct (String.eqb_spec (Getenv rt w "OPENROUTER_API_KEY") EmptyString)
    as [Hkey | Hkey]; [discriminate |].
  destruct (MarshalRequest rt _) as [err | body] eqn:Hmarshal; [discriminate |].
  destruct (NewRequestCheck rt "POST" openRouterURL); [discriminate |].
  destruct (fst (Do rt PlainClient _ w)) as [err | resp] eqn:Hdo;
    [discriminate |].
  destruct (fault (Body resp)) eqn:Hfault; [discriminate |].
  destruct (Z.eqb_spec (StatusCode resp) StatusOK) as [Hs | Hs];
    [| discriminate].
  destruct (UnmarshalResponse rt _) as [err | decoded] eqn:Hdec;
    [discriminate |].
  destruct (Choices decoded) as [| first others] eqn:Hch; [discriminate |].
  intros [= <-]. split; [exact Hkey |].
  exists body, resp, decoded, first, others. repeat split; assumption.
Qed.

Lemma generator_success_only_from_200_witness :
  Getenv Fake.happy 1%nat "OPENROUTER_API_KEY" <> EmptyString /\
  exists (body : string) (resp : Response) (decoded : OpenRouterResponse)
         (first : OpenRouterChoice) (others : list OpenRouterChoice),
    MarshalRequest Fake.happy (completionBody Fake.happy "T" "D") = inr body /\
    fst (Do Fake.happy PlainClient
           (completionRequest (Getenv Fake.happy 1%nat "OPENROUTER_API_KEY") body)
           1%nat)
    = inr resp /\
    StatusCode resp = StatusOK /\
    fault (Body resp) = None /\
    UnmarshalResponse Fake.happy (data (Body resp)) = inr decoded /\
    Choices decoded = first :: others /\
    "#a #b #c" = ChoiceContent first.
Proof.
  exact (generator_success_only_from_200 Fake.happy "T" "D" 1%nat "#a #b #c"
           eq_refl).
Defined.

(** ** postToTwitter *)

Section PublisherValue.

Context {rt : Runtime}.
Variables (a : Article) (id hashtags : string) (w : World rt).

(** The result of [postToTwitter], test by test. *)
Lemma postToTwitter_value :
  value (postToTwitter rt a id hashtags w)
  = if String.eqb (Getenv rt w "TWITTER_CONSUMER_KEY") EmptyString
       || String.eqb (Getenv rt w "TWITTER_CONSUMER_SECRET") EmptyString
       || String.eqb (Getenv rt w "TWITTER_ACCESS_TOKEN") EmptyString
       || String.eqb (Getenv rt w "TWITTER_ACCESS_SECRET") EmptyString
    then Some (MkError "twitter api credentials not set")
    else
      match NewRequestCheck rt "POST" tweetURL with
      | Some err => Some (MkError ("failed to create request: " ++ Error err))
      | None =>
          match fst (Do rt (signer rt w) (tweetRequest rt a id hashtags) w) with
          | inl err => Some (MkError ("failed to send request: " ++ Error err))
          | inr resp =>
              match fault (Body resp) with
              | Some err =>
                  Some (MkError ("failed to read response body: " ++ Error err))
              | None =>
                  if StatusCode resp =? StatusCreated then None
                  else Some (MkError
                               ("received non-201 status code: "
                                ++ fmt_d (StatusCode resp) ++ nl
                                ++ "Response: " ++ data (Body resp)))
              end
          end
      end.
Proof.
  unfold postToTwitter, http_NewRequest, signer, tweetRequest.
  run; unfold Errorf;
    try match goal with
        | H : negb true = true |- _ => discriminate H
        | H : negb false = false |- _ => discriminate H
        end;
    try reflexivity; f_equal; f_equal;
    first
      [ formatted
      | match goal with
        | |- _ = ?p ++ ?s ++ nl ++ ?q ++ ?b =>
            transitivity (p ++ s ++ nl ++ q ++ b ++ EmptyString);
            [reflexivity | now rewrite append_nil_r]
        end ].
Qed.

End PublisherValue.

(** X12. When any of the four Twitter credentials is empty the publisher
    fails at once with [twitter api credentials not set]: no request is
    built or sent and the world is as it was. *)
Theorem publisher_without_credentials
    (rt : Runtime) (a : Article) (id hashtags : string) (w : World rt) :
  Getenv rt w "TWITTER_CONSUMER_KEY" = EmptyString
  \/ Getenv rt w "TWITTER_CONSUMER_SECRET" = EmptyString
  \/ Getenv rt w "TWITTER_ACCESS_TOKEN" = EmptyString
  \/ Getenv rt w "TWITTER_ACCESS_SECRET" = EmptyString ->
  postToTwitter rt a id hashtags w
  = (Some (MkError "twitter api credentials not set"), w,
     [EvCall (CallPostToTwitter a id hashtags)]).
Proof.
  intros Hmissing.
  assert (Hor : String.eqb (Getenv rt w "TWITTER_CONSUMER_KEY") EmptyString
                || String.eqb (Getenv rt w "TWITTER_CONSUMER_SECRET") EmptyString
                || String.eqb (Getenv rt w "TWITTER_ACCESS_TOKEN") EmptyString
                || String.eqb (Getenv rt w "TWITTER_ACCESS_SECRET") EmptyString
                = true).
  { destruct Hmissing as [-> | [-> | [-> | ->]]];
      cbn [String.eqb orb]; rewrite ?orb_true_r; reflexivity. }
  unfold postToTwitter.
  rewrite (run_eta (bind _ _ _)).
  run_along ltac:(rewrite ?Hor). reflexivity.
Qed.

Lemma publisher_without_credentials_witness :
  postToTwitter
    (Fake.with_env [ ("TWITTER_CONSUMER_KEY", "ck");
                     ("TWITTER_CONSUMER_SECRET", "cs");
                     ("TWITTER_ACCESS_TOKEN", "at") ])
    Fake.article_T "abc123" "#a" 2%nat
  = (Some (MkError "twitter api credentials not set"), 2%nat,
     [EvCall (CallPostToTwitter Fake.article_T "abc123" "#a")]).
Proof.
  apply (publisher_without_credentials
           (Fake.with_env [ ("TWITTER_CONSUMER_KEY", "ck");
                            ("TWITTER_CONSUMER_SECRET", "cs");
                            ("TWITTER_ACCESS_TOKEN", "at") ])).
  right. right. right. reflexivity.
Defined.

(** X13. The body of the answer is read before the status is tested: when
    reading it fails the publisher returns [failed to read response body],
    whatever the status, 201 included. *)
Theorem publisher_unread_body_is_failure
    (rt : Runtime) (a : Article) (id hashtags : string) (w w' : World rt)
    (resp : Response) (err : error) :
  Getenv rt w "TWITTER_CONSUMER_KEY" <> EmptyString ->
  Getenv rt w "TWITTER_CONSUMER_SECRET" <> EmptyString ->
  Getenv rt w "TWITTER_ACCESS_TOKEN" <> EmptyString ->
  Getenv rt w "TWITTER_ACCESS_SECRET" <> EmptyString ->
  NewRequestCheck rt "POST" tweetURL = None ->
  Do rt (signer rt w) (tweetRequest rt a id hashtags) w = (inr resp, w') ->
  fault (Body resp) = Some err ->
  value (postToTwitter rt a id hashtags w)
  = Some (MkError ("failed to read response body: " ++ Error err)).
Proof.
  intros Hck Hcs Hat Has Hcheck Hdo Hfault.
  apply String.eqb_neq in Hck, Hcs, Hat, Has.
  rewrite postToTwitter_value, Hck, Hcs, Hat, Has, Hcheck, Hdo.
  cbn [orb fst]. rewrite Hfault. reflexivity.
Qed.

Lemma publisher_unread_body_is_failure_witness :
  value (postToTwitter
           (Fake.with_net
              (fun _ _ =>
                 inr {| StatusCode := 201;
                        Body := {| data := "{";
                                   fault := Some (MkError "unexpected EOF") |} |}))
           Fake.article_T "abc123" "#a" 0%nat)
  = Some (MkError ("failed to read response body: " ++ "unexpected EOF")).
Proof.
  exact (publisher_unread_body_is_failure
           (Fake.with_net
              (fun _ _ =>
                 inr {| StatusCode := 201;
                        Body := {| data := "{";
                                   fault := Some (MkError "unexpected EOF") |} |}))
           Fake.article_T "abc123" "#a" 0%nat 1%nat
           {| StatusCode := 201;
              Body := {| data := "{"; fault := Some (MkError "unexpected EOF") |} |}
           (MkError "unexpected EOF")
           ltac:(vm_compute; discriminate) ltac:(vm_compute; discriminate)
           ltac:(vm_compute; discriminate) ltac:(vm_compute; discriminate)
           eq_refl eq_refl eq_refl).
Defined.

(** ** telegramHandler *)

Section FailurePaths.

Context {rt : Runtime}.
Variables (rw : ResponseWriter) (r : ServerRequest) (w : World rt).
Variable update : TelegramUpdate.

Hypothesis fresh : wroteHeader rw = false.
Hypothesis decoded : DecodeUpdate rt (InBody r) = inr update.
Hypothesis not_http : HasPrefix (Text (Message update)) "http://" = false.
Hypothesis not_https : HasPrefix (Text (Message update)) "https://" = false.

(** The response writer a decoded trigger ends with. *)
Lemma valid_trigger_value :
  value (telegramHandler rt rw r w)
  = {| wroteHeader := true; status := 200;
       rwHeader := rwHeader rw; written := written rw |}.
Proof.
  unfold telegramHandler.
  rewrite decoded. cbn zeta. rewrite not_http, not_https. cbn [orb].
  run; rewrite ?(WriteHeader_fresh _ _ _ fresh); reflexivity.
Qed.

(** Unless every stage succeeds, the status line is the last event of the
    run and the calls before it are those of the pipeline. *)
Lemma failure_trace :
  ~ (exists (a : Article) (h : string),
        all_stages_succeed rt (Text (Message update)) w a h) ->
  exists before : list Event,
    trace (telegramHandler rt rw r w) = (before ++ [EvWriteHeader 200])%list /\
    calls before = pipeline_calls rt (Text (Message update)) w.
Proof.
  intros Hfail.
  pose proof (valid_trigger_calls rw r w fresh update decoded not_http not_https)
    as Hcalls.
  revert Hcalls. unfold telegramHandler.
  rewrite decoded. cbn zeta. rewrite not_http, not_https. cbn [orb].
  destruct (value (fetchArticle rt (Text (Message update)) w))
    as [e | a] eqn:Hf.
  { run_along ltac:(rewrite ?Hf, ?(WriteHeader_fresh _ _ _ fresh)).
    rewrite !app_assoc. intros Hcalls. eexists. split; [reflexivity |].
    rewrite calls_app in Hcalls. cbn in Hcalls.
    now rewrite app_nil_r in Hcalls. }
  destruct (value (getHashtags rt (Title a) (Description a)
                     (after (fetchArticle rt (Text (Message update)) w))))
    as [e | h] eqn:Hg.
  { run_along ltac:(rewrite ?Hf, ?Hg, ?(WriteHeader_fresh _ _ _ fresh)).
    rewrite !app_assoc. intros Hcalls. eexists. split; [reflexivity |].
    rewrite calls_app in Hcalls. cbn in Hcalls.
    now rewrite app_nil_r in Hcalls. }
  destruct (value (postToTwitter rt a (Text (Message update)) h
                     (after (getHashtags rt (Title a) (Description a)
                               (after (fetchArticle rt
                                         (Text (Message update)) w))))))
    as [e |] eqn:Hp.
  { run_along ltac:(rewrite ?Hf, ?Hg, ?Hp, ?(WriteHeader_fresh _ _ _ fresh)).
    rewrite !app_assoc. intros Hcalls. eexists. split; [reflexivity |].
    rewrite calls_app in Hcalls. cbn in Hcalls.
    now rewrite app_nil_r in Hcalls. }
  exfalso. apply Hfail. exists a, h. repeat split; assumption.
Qed.

End FailurePaths.

(** Unless every stage succeeds, the pipeline notifies once, in plain
    text. *)
Lemma pipeline_failure_notification
    (rt : Runtime) (id : string) (w : World rt) :
  ~ (exists (a : Article) (h : string), all_stages_succeed rt id w a h) ->
  exists message : string,
    omap (fun c => match c with
                   | CallSendTelegramNotification m p => Some (m, p)
                   | _ => None
                   end)
         (pipeline_calls rt id w)
    = [(message, EmptyString)].
Proof.
  intros Hfail. unfold pipeline_calls. cbn zeta.
  destruct (value (fetchArticle rt id w)) as [e | a] eqn:Hf;
    [eexists; reflexivity |].
  destruct (value (getHashtags rt (Title a) (Description a)
                     (after (fetchArticle rt id w))))
    as [e | h] eqn:Hg; [eexists; reflexivity |].
  destruct (value (postToTwitter rt a id h
                     (after (getHashtags rt (Title a) (Description a)
                               (after (fetchArticle rt id w))))))
    as [e |] eqn:Hp; [eexists; reflexivity |].
  exfalso. apply Hfail. exists a, h. repeat split; assumption.
Qed.

(** X14. When the resolver returns an article and the generator fails with
    error [E], the notifier is invoked exactly once, in plain text, with a
    message in which the identifier and the text of [E] occur; the
    generator was given the title and the description of that article, and
    the publisher is not entered. *)
Theorem generator_failure_notified
    (rt : Runtime) (rw : ResponseWriter) (r : ServerRequest) (w : World rt)
    (update : TelegramUpdate) (a : Article) (E : error) :
  wroteHeader rw = false ->
  DecodeUpdate rt (InBody r) = inr update ->
  HasPrefix (Text (Message update)) "http://" = false ->
  HasPrefix (Text (Message update)) "https://" = false ->
  value (fetchArticle rt (Text (Message update)) w) = inr a ->
  value (getHashtags rt (Title a) (Description a)
           (after (fetchArticle rt (Text (Message update)) w))) = inl E ->
  notifications (trace (telegramHandler rt rw r w))
  = [ ("❌ Failed to get hashtags for article with ID "
       ++ Text (Message update) ++ ". Reason: " ++ Error E, EmptyString) ] /\
  generates (trace (telegramHandler rt rw r w))
  = [(Title a, Description a)] /\
  publishes (trace (telegramHandler rt rw r w)) = [] /\
  transport_status (value (telegramHandler rt rw r w)) = 200.
Proof.
  intros fresh decoded H1 H2 Hf Hg.
  unfold notifications, generates, publishes.
  rewrite (valid_trigger_calls rw r w fresh update decoded H1 H2).
  unfold pipeline_calls. cbn zeta. rewrite Hf, Hg.
  rewrite <- hashtagsFailure_text with (rt := rt).
  repeat split.
  exact (valid_trigger_status rw r w fresh update decoded H1 H2).
Qed.

Lemma generator_failure_notified_witness :
  notifications
    (trace (telegramHandler (Fake.runtime (Fake.scenario 201 []))
              newResponseWriter (Fake.inbound "update-abc123") 0%nat))
  = [ ("❌ Failed to get hashtags for article with ID " ++ "abc123"
       ++ ". Reason: " ++ "no content found in OpenRouter response",
       EmptyString) ] /\
  generates
    (trace (telegramHandler (Fake.runtime (Fake.scenario 201 []))
              newResponseWriter (Fake.inbound "update-abc123") 0%nat))
  = [("T", "D")] /\
  publishes
    (trace (telegramHandler (Fake.runtime (Fake.scenario 201 []))
              newResponseWriter (Fake.inbound "update-abc123") 0%nat)) = [] /\
  transport_status
    (value (telegramHandler (Fake.runtime (Fake.scenario 201 []))
              newResponseWriter (Fake.inbound "update-abc123") 0%nat)) = 200.
Proof.
  exact (generator_failure_notified (Fake.runtime (Fake.scenario 201 []))
           newResponseWriter (Fake.inbound "update-abc123") 0%nat
           (Fake.trigger "abc123") Fake.article_T
           (MkError "no content found in OpenRouter response")
           eq_refl eq_refl eq_refl eq_refl eq_refl eq_refl).
Defined.

(** X15. When resolver and generator succeed and the publisher fails with
    error [E], the notifier is invoked exactly once, in plain text, with a
    message in which the identifier and the text of [E] occur, and the
    transport is still told 200. *)
Theorem publisher_failure_notified
    (rt : Runtime) (rw : ResponseWriter) (r : ServerRequest) (w : World rt)
    (update : TelegramUpdate) (a : Article) (h : string) (E : error) :
  wroteHeader rw = false ->
  DecodeUpdate rt (InBody r) = inr update ->
  HasPrefix (Text (Message update)) "http://" = false ->
  HasPrefix (Text (Message update)) "https://" = false ->
  value (fetchArticle rt (Text (Message update)) w) = inr a ->
  value (getHashtags rt (Title a) (Description a)
           (after (fetchArticle rt (Text (Message update)) w))) = inr h ->
  value (postToTwitter rt a (Text (Message update)) h
           (after (getHashtags rt (Title a) (Description a)
                     (after (fetchArticle rt (Text (Message update)) w)))))
  = Some E ->
  notifications (trace (telegramHandler rt rw r w))
  = [ ("❌ Failed to post to Twitter for article with ID "
       ++ Text (Message update) ++ ". Reason: " ++ Error E, EmptyString) ] /\
  publishes (trace (telegramHandler rt rw r w))
  = [(a, Text (Message update), h)] /\
  transport_status (value (telegramHandler rt rw r w)) = 200.
Proof.
  intros fresh decoded H1 H2 Hf Hg Hp.
  unfold notifications, publishes.
  rewrite (valid_trigger_calls rw r w fresh update decoded H1 H2).
  unfold pipeline_calls. cbn zeta. rewrite Hf, Hg, Hp.
  rewrite <- twitterFailure_text with (rt := rt).
  repeat split.
  exact (valid_trigger_status rw r w fresh update decoded H1 H2).
Qed.

Lemma publisher_failure_notified_witness :
  notifications
    (trace (telegramHandler Fake.answered_200 newResponseWriter
              (Fake.inbound "update-abc123") 0%nat))
  = [ ("❌ Failed to post to Twitter for article with ID " ++ "abc123"
       ++ ". Reason: "
       ++ ("received non-201 status code: 200" ++ nl ++ "Response: tweet-json"),
       EmptyString) ] /\
  publishes
    (trace (telegramHandler Fake.answered_200 newResponseWriter
              (Fake.inbound "update-abc123") 0%nat))
  = [(Fake.article_T, "abc123", "#a #b #c")] /\
  transport_status
    (value (telegramHandler Fake.answered_200 newResponseWriter
              (Fake.inbound "update-abc123") 0%nat)) = 200.
Proof.
  exact (publisher_failure_notified Fake.answered_200
           newResponseWriter (Fake.inbound "update-abc123") 0%nat
           (Fake.trigger "abc123") Fake.article_T "#a #b #c"
           (MkError ("received non-201 status code: 200" ++ nl
                     ++ "Response: tweet-json"))
           eq_refl eq_refl eq_refl eq_refl eq_refl eq_refl eq_refl).
Defined.

(** X16. A valid trigger is notified exactly once, and the parse mode of the
    notification tells the outcome: it is [MarkdownV2] exactly when all
    three stages succeeded and empty otherwise. *)
Theorem rich_text_iff_success
    (rt : Runtime) (rw : ResponseWriter) (r : ServerRequest) (w : World rt)
    (update : TelegramUpdate) :
  wroteHeader rw = false ->
  DecodeUpdate rt (InBody r) = inr update ->
  HasPrefix (Text (Message update)) "http://" = false ->
  HasPrefix (Text (Message update)) "https://" = false ->
  exists message parseMode : string,
    notifications (trace (telegramHandler rt rw r w)) = [(message, parseMode)] /\
    (parseMode = EmptyString \/ parseMode = "MarkdownV2") /\
    (parseMode = "MarkdownV2"
     <-> exists (a : Article) (h : string),
           all_stages_succeed rt (Text (Message update)) w a h).
Proof.
  intros fresh decoded H1 H2.
  unfold notifications, all_stages_succeed.
  rewrite (valid_trigger_calls rw r w fresh update decoded H1 H2).
  unfold pipeline_calls. cbn zeta.
  destruct (value (fetchArticle rt (Text (Message update)) w))
    as [e | a] eqn:Hf.
  { eexists _, _. split; [reflexivity |]. split; [now left |].
    split; [discriminate |]. intros (a' & h' & Ha & _). discriminate Ha. }
  destruct (value (getHashtags rt (Title a) (Description a)
                     (after (fetchArticle rt (Text (Message update)) w))))
    as [e | h] eqn:Hg.
  { eexists _, _. split; [reflexivity |]. split; [now left |].
    split; [discriminate |]. intros (a' & h' & Ha & Hh & _).
    injection Ha as <-. rewrite Hg in Hh. discriminate Hh. }
  destruct (value (postToTwitter rt a (Text (Message update)) h
                     (after (getHashtags rt (Title a) (Description a)
                               (after (fetchArticle rt
                                         (Text (Message update)) w))))))
    as [e |] eqn:Hp.
  { eexists _, _. split; [reflexivity |]. split; [now left |].
    split; [discriminate |]. intros (a' & h' & Ha & Hh & Hp').
    injection Ha as <-. rewrite Hg in Hh. injection Hh as <-.
    rewrite Hp in Hp'. discriminate Hp'. }
  eexists _, _. split; [reflexivity |]. split; [now right |].
  split; [| reflexivity]. intros _. exists a, h. repeat split; assumption.
Qed.

Lemma rich_text_iff_success_witness :
  exists message parseMode : string,
    notifications
      (trace (telegramHandler Fake.happy newResponseWriter
                (Fake.inbound "update-missing") 0%nat))
    = [(message, parseMode)] /\
    (parseMode = EmptyString \/ parseMode = "MarkdownV2") /\
    (parseMode = "MarkdownV2"
     <-> exists (a : Article) (h : string),
           all_stages_succeed Fake.happy "missing" 0%nat a h).
Proof.
  exact (rich_text_iff_success Fake.happy newResponseWriter
           (Fake.inbound "update-missing") 0%nat (Fake.trigger "missing")
           eq_refl eq_refl eq_refl eq_refl).
Defined.

(** X17. Unless all three stages succeed, the handler notifies first and
    acknowledges last: the write of status 200 is the final event of the
    run, after the one plain-text notification and every request. *)
Theorem failure_notified_before_acknowledged
    (rt : Runtime) (rw : ResponseWriter) (r : ServerRequest) (w : World rt)
    (update : TelegramUpdate) :
  wroteHeader rw = false ->
  DecodeUpdate rt (InBody r) = inr update ->
  HasPrefix (Text (Message update)) "http://" = false ->
  HasPrefix (Text (Message update)) "https://" = false ->
  ~ (exists (a : Article) (h : string),
        all_stages_succeed rt (Text (Message update)) w a h) ->
  exists (before : list Event) (message : string),
    trace (telegramHandler rt rw r w) = (before ++ [EvWriteHeader 200])%list /\
    notifications before = [(message, EmptyString)] /\
    requests before = requests (trace (telegramHandler rt rw r w)) /\
    acks before = [].
Proof.
  intros fresh decoded H1 H2 Hfail.
  destruct (failure_trace rw r w update fresh decoded H1 H2 Hfail)
    as (before & Htrace & Hcalls).
  pose proof (valid_trigger_acks rw r w fresh update decoded H1 H2) as Hacks.
  rewrite Htrace, acks_app in Hacks.
  assert (Hno : acks before = []).
  { change (acks [EvWriteHeader 200]) with [200] in Hacks.
    destruct (acks before) as [| c l]; [reflexivity |].
    destruct l; discriminate Hacks. }
  destruct (pipeline_failure_notification rt (Text (Message update)) w Hfail)
    as (message & Hn).
  exists before, message. split; [exact Htrace |]. split.
  - unfold notifications. rewrite Hcalls. exact Hn.
  - split; [| exact Hno]. rewrite Htrace, requests_app.
    change (requests [EvWriteHeader 200]) with (@nil (Client * Request)).
    now rewrite app_nil_r.
Qed.

Lemma failure_notified_before_acknowledged_witness :
  exists (before : list Event) (message : string),
    trace (telegramHandler Fake.happy newResponseWriter
             (Fake.inbound "update-missing") 0%nat)
    = (before ++ [EvWriteHeader 200])%list /\
    notifications before = [(message, EmptyString)] /\
    requests before
    = requests (trace (telegramHandler Fake.happy newResponseWriter
                         (Fake.inbound "update-missing") 0%nat)) /\
    acks before = [].
Proof.
  apply (failure_notified_before_acknowledged Fake.happy newResponseWriter
           (Fake.inbound "update-missing") 0%nat (Fake.trigger "missing"));
    try reflexivity.
  intros (a & h & Hf & _). vm_compute in Hf. discriminate Hf.
Defined.

(** [strings.HasPrefix], as a statement. *)
Lemma HasPrefix_spec (s prefix : string) :
  HasPrefix s prefix = true <-> exists rest : string, s = prefix ++ rest.
Proof.
  unfold HasPrefix. revert s.
  induction prefix as [| c prefix IH]; intros s.
  - split; [intros _; now exists s | intros _; now destruct s].
  - destruct s as [| d s]; cbn [String.prefix].
    + split; [discriminate | intros (rest & Hrest); discriminate Hrest].
    + destruct (ascii_dec c d) as [<- | Hneq].
      * rewrite IH. split; intros (rest & Hrest); exists rest.
        -- change (String c s = String c (prefix ++ rest)). now f_equal.
        -- change (String c s = String c (prefix ++ rest)) in Hrest.
           now injection Hrest.
      * split; [discriminate |]. intros (rest & Hrest).
        change (String d s = String c (prefix ++ rest)) in Hrest.
        injection Hrest as Hd _. now contradict Hneq.
Qed.

(** X18. The handler reads nothing of the update but the text of its
    message: two requests that decode to updates with the same text are
    handled alike, whatever their update ids, so a delivery is not
    recognised as a repetition. *)
Theorem handler_ignores_update_id
    (rt : Runtime) (rw : ResponseWriter) (r1 r2 : ServerRequest) (w : World rt)
    (u1 u2 : TelegramUpdate) :
  DecodeUpdate rt (InBody r1) = inr u1 ->
  DecodeUpdate rt (InBody r2) = inr u2 ->
  Text (Message u1) = Text (Message u2) ->
  telegramHandler rt rw r1 w = telegramHandler rt rw r2 w.
Proof.
  intros Hd1 Hd2 Htext. unfold telegramHandler.
  rewrite Hd1, Hd2. cbn zeta. rewrite Htext. reflexivity.
Qed.

Lemma handler_ignores_update_id_witness :
  telegramHandler
    (Fake.with_updates
       [ ("first", {| UpdateID := 1; Message := {| Text := "abc123" |} |});
         ("again", {| UpdateID := 2; Message := {| Text := "abc123" |} |}) ])
    newResponseWriter (Fake.inbound "first") 0%nat
  = telegramHandler
      (Fake.with_updates
         [ ("first", {| UpdateID := 1; Message := {| Text := "abc123" |} |});
           ("again", {| UpdateID := 2; Message := {| Text := "abc123" |} |}) ])
      newResponseWriter (Fake.inbound "again") 0%nat.
Proof.
  apply (handler_ignores_update_id
           (Fake.with_updates
              [ ("first", {| UpdateID := 1; Message := {| Text := "abc123" |} |});
                ("again", {| UpdateID := 2; Message := {| Text := "abc123" |} |}) ])
           newResponseWriter (Fake.inbound "first") (Fake.inbound "again") 0%nat
           {| UpdateID := 1; Message := {| Text := "abc123" |} |}
           {| UpdateID := 2; Message := {| Text := "abc123" |} |});
    reflexivity.
Defined.

(** X19. Whatever the request, the handler writes exactly one status line,
    200 or 400, and that is the status the transport receives. *)
Theorem one_status_line_per_request
    (rt : Runtime) (rw : ResponseWriter) (r : ServerRequest) (w : World rt) :
  wroteHeader rw = false ->
  exists code : Z,
    acks (trace (telegramHandler rt rw r w)) = [code] /\
    transport_status (value (telegramHandler rt rw r w)) = code /\
    (code = StatusOK \/ code = StatusBadRequest).
Proof.
  intros fresh.
  destruct (DecodeUpdate rt (InBody r)) as [err | update] eqn:Hdec.
  - exists 400.
    destruct (undecodable_trigger_run rw r w fresh err Hdec) as [Hs Ht].
    rewrite Hs, Ht. repeat split. now right.
  - exists 200.
    destruct (HasPrefix (Text (Message update)) "http://") eqn:H1;
      [| destruct (HasPrefix (Text (Message update)) "https://") eqn:H2].
    + rewrite (url_trigger_run rw r w fresh update Hdec); [| now left].
      repeat split. now left.
    + rewrite (url_trigger_run rw r w fresh update Hdec); [| now right].
      repeat split. now left.
    + split; [exact (valid_trigger_acks rw r w fresh update Hdec H1 H2) |].
      split; [exact (valid_trigger_status rw r w fresh update Hdec H1 H2) |].
      now left.
Qed.

Lemma one_status_line_per_request_witness :
  exists code : Z,
    acks (trace (telegramHandler Fake.happy newResponseWriter
                   (Fake.inbound "garbage") 0%nat)) = [code] /\
    transport_status
      (value (telegramHandler Fake.happy newResponseWriter
                (Fake.inbound "garbage") 0%nat)) = code /\
    (code = StatusOK \/ code = StatusBadRequest).
Proof.
  exact (one_status_line_per_request Fake.happy newResponseWriter
           (Fake.inbound "garbage") 0%nat eq_refl).
Defined.

(** X20. The handler writes a response body only when it rejects the
    request: for a body that decodes it leaves headers and body of the
    response untouched and only sets the status; for one that does not it
    writes the line [bad request]. *)
Theorem body_written_only_on_rejection
    (rt : Runtime) (rw : ResponseWriter) (r : ServerRequest) (w : World rt) :
  wroteHeader rw = false ->
  (forall update : TelegramUpdate,
      DecodeUpdate rt (InBody r) = inr update ->
      value (telegramHandler rt rw r w)
      = {| wroteHeader := true; status := 200;
           rwHeader := rwHeader rw; written := written rw |}) /\
  (forall err : error,
      DecodeUpdate rt (InBody r) = inl err ->
      written (value (telegramHandler rt rw r w))
      = written rw ++ "bad request" ++ nl).
Proof.
  intros fresh. split.
  - intros update Hdec.
    destruct (HasPrefix (Text (Message update)) "http://") eqn:H1;
      [| destruct (HasPrefix (Text (Message update)) "https://") eqn:H2].
    + rewrite (url_trigger_run rw r w fresh update Hdec); [| now left].
      reflexivity.
    + rewrite (url_trigger_run rw r w fresh update Hdec); [| now right].
      reflexivity.
    + exact (valid_trigger_value rw r w update fresh Hdec H1 H2).
  - intros err Hdec.
    unfold telegramHandler, http_Error, rw_Write, WriteHeader.
    rewrite Hdec. cbn [rw_Header_Set wroteHeader]. rewrite fresh.
    run. reflexivity.
Qed.

Lemma body_written_only_on_rejection_witness :
  value (telegramHandler Fake.happy newResponseWriter
           (Fake.inbound "update-abc123") 0%nat)
  = {| wroteHeader := true; status := 200;
       rwHeader := ∅; written := EmptyString |} /\
  written (value (telegramHandler Fake.happy newResponseWriter
                    (Fake.inbound "garbage") 0%nat))
  = EmptyString ++ "bad request" ++ nl.
Proof.
  split.
  - exact (proj1 (body_written_only_on_rejection Fake.happy newResponseWriter
                    (Fake.inbound "update-abc123") 0%nat eq_refl)
             (Fake.trigger "abc123") eq_refl).
  - exact (proj2 (body_written_only_on_rejection Fake.happy newResponseWriter
                    (Fake.inbound "garbage") 0%nat eq_refl)
             (MkError "invalid character looking for beginning of value")
             eq_refl).
Defined.

(** X21. A decoded trigger is skipped exactly when its text is [http://] or
    [https://] followed by anything; the test is on these lower-case
    prefixes only, and any other text, the empty one included, reaches the
    resolver as it is. *)
Theorem skipped_iff_url_prefix
    (rt : Runtime) (rw : ResponseWriter) (r : ServerRequest) (w : World rt)
    (update : TelegramUpdate) :
  wroteHeader rw = false ->
  DecodeUpdate rt (InBody r) = inr update ->
  (resolves (trace (telegramHandler rt rw r w)) = []
   <-> (exists rest : string, Text (Message update) = "http://" ++ rest)
       \/ (exists rest : string, Text (Message update) = "https://" ++ rest)) /\
  (resolves (trace (telegramHandler rt rw r w)) = []
   \/ resolves (trace (telegramHandler rt rw r w)) = [Text (Message update)]).
Proof.
  intros fresh Hdec.
  rewrite <- !HasPrefix_spec.
  destruct (HasPrefix (Text (Message update)) "http://") eqn:H1;
    [| destruct (HasPrefix (Text (Message update)) "https://") eqn:H2].
  - rewrite (url_trigger_run rw r w fresh update Hdec); [| now left].
    split; [| now left]. split; [now left | reflexivity].
  - rewrite (url_trigger_run rw r w fresh update Hdec); [| now right].
    split; [| now left]. split; [now right | reflexivity].
  - unfold resolves.
    rewrite (valid_trigger_calls rw r w fresh update Hdec H1 H2).
    assert (Hres : omap (fun c => match c with
                                  | CallFetchArticle id => Some id
                                  | _ => None
                                  end)
                     (pipeline_calls rt (Text (Message update)) w)
                   = [Text (Message update)]).
    { unfold pipeline_calls. cbn zeta.
      destruct (value (fetchArticle rt (Text (Message update)) w)) as [e | a];
        [reflexivity |].
      destruct (value (getHashtags rt (Title a) (Description a) _)) as [e | h];
        [reflexivity |].
      destruct (value (postToTwitter rt a (Text (Message update)) h _));
        reflexivity. }
    rewrite Hres. split; [| now right].
    split; [discriminate | intros [H | H]; discriminate H].
Qed.

Lemma skipped_iff_url_prefix_witness :
  resolves (trace (telegramHandler
                     (Fake.with_updates [ ("upper", Fake.trigger "HTTP://x") ])
                     newResponseWriter (Fake.inbound "upper") 0%nat))
  = [] \/
  resolves (trace (telegramHandler
                     (Fake.with_updates [ ("upper", Fake.trigger "HTTP://x") ])
                     newResponseWriter (Fake.inbound "upper") 0%nat))
  = ["HTTP://x"].
Proof.
  exact (proj2 (skipped_iff_url_prefix
                  (Fake.with_updates [ ("upper", Fake.trigger "HTTP://x") ])
                  newResponseWriter (Fake.inbound "upper") 0%nat
                  (Fake.trigger "HTTP://x") eq_refl eq_refl)).
Defined.

(** ** main *)

(** X22. The handler of the root pattern answers every request alike, with
    status 200 and the text [The server is running.]; it sends nothing and
    leaves the world as it was. *)
Theorem root_handler_reports_running
    (rt : Runtime) (rw : ResponseWriter) (r : ServerRequest) (w : World rt) :
  wroteHeader rw = false ->
  rootHandler rt rw r w
  = ({| wroteHeader := true; status := 200; rwHeader := rwHeader rw;
        written := written rw ++ "The server is running." |},
     w,
     [EvWriteHeader 200; EvWrite "The server is running."]).
Proof.
  intros fresh. unfold rootHandler, rw_Write, WriteHeader. rewrite fresh.
  rewrite (run_eta (bind _ _ _)). run. reflexivity.
Qed.

Lemma root_handler_reports_running_witness :
  rootHandler Fake.happy newResponseWriter (Fake.inbound "anything") 9%nat
  = ({| wroteHeader := true; status := 200; rwHeader := ∅;
        written := EmptyString ++ "The server is running." |},
     9%nat,
     [EvWriteHeader 200; EvWrite "The server is running."]).
Proof.
  exact (root_handler_reports_running Fake.happy newResponseWriter
           (Fake.inbound "anything") 9%nat eq_refl).
Defined.

(** X23. What one stage returns is what the next is given: the generator
    is entered only with the title and the description of the article the
    resolver returned, and the publisher only with that article, the text
    of the trigger and the hashtags the generator returned. *)
Theorem stage_inputs_are_previous_outputs
    (rt : Runtime) (rw : ResponseWriter) (r : ServerRequest) (w : World rt)
    (update : TelegramUpdate) :
  wroteHeader rw = false ->
  DecodeUpdate rt (InBody r) = inr update ->
  HasPrefix (Text (Message update)) "http://" = false ->
  HasPrefix (Text (Message update)) "https://" = false ->
  (forall title description : string,
      In (title, description) (generates (trace (telegramHandler rt rw r w))) ->
      exists a : Article,
        value (fetchArticle rt (Text (Message update)) w) = inr a /\
        title = Title a /\ description = Description a) /\
  (forall (a : Article) (id h : string),
      In (a, id, h) (publishes (trace (telegramHandler rt rw r w))) ->
      value (fetchArticle rt (Text (Message update)) w) = inr a /\
      id = Text (Message update) /\
      value (getHashtags rt (Title a) (Description a)
               (after (fetchArticle rt (Text (Message update)) w))) = inr h).
Proof.
  intros fresh decoded H1 H2.
  unfold generates, publishes.
  rewrite (valid_trigger_calls rw r w fresh update decoded H1 H2).
  unfold pipeline_calls. cbn zeta.
  destruct (value (fetchArticle rt (Text (Message update)) w))
    as [e | a] eqn:Hf.
  { split; intros; contradiction. }
  destruct (value (getHashtags rt (Title a) (Description a)
                     (after (fetchArticle rt (Text (Message update)) w))))
    as [e | h] eqn:Hg.
  { split.
    - intros title description [[= <- <-] | []]. now exists a.
    - intros; contradiction. }
  destruct (value (postToTwitter rt a (Text (Message update)) h _)).
  - split.
    + intros title description [[= <- <-] | []]. now exists a.
    + intros a' id' h' [[= <- <- <-] | []]. repeat split. exact Hg.
  - split.
    + intros title description [[= <- <-] | []]. now exists a.
    + intros a' id' h' [[= <- <- <-] | []]. repeat split. exact Hg.
Qed.

Lemma stage_inputs_are_previous_outputs_witness :
  value (fetchArticle Fake.happy "abc123" 0%nat) = inr Fake.article_T /\
  "abc123" = "abc123" /\
  value (getHashtags Fake.happy "T" "D"
           (after (fetchArticle Fake.happy "abc123" 0%nat))) = inr "#a #b #c".
Proof.
  apply (proj2 (stage_inputs_are_previous_outputs Fake.happy newResponseWriter
                  (Fake.inbound "update-abc123") 0%nat (Fake.trigger "abc123")
                  eq_refl eq_refl eq_refl eq_refl)
           Fake.article_T "abc123" "#a #b #c").
  vm_compute. left. reflexivity.
Defined.
